(** * NyaySetu legal chatbot: service layer, voice collaborators, vector store

    A shallow embedding of the Python sources

      - [main.py]                  (FastAPI service: lifespan, health, chat)
      - [scripts/voice_input.py]   (speech to text)
      - [scripts/voice_output.py]  (text to speech)
      - [scripts/voice_chatbot.py] (voice orchestrator)
      - [scripts/retriever.py]     (semantic retriever)
      - [scripts/build_vectordb.py] (corpus indexer)

    Python [str] values are sequences of Unicode code points, exceptions are
    values of an outcome type, and mutable process state (the RAG pipeline,
    the file system, the UUID generator) is threaded explicitly. *)

From Stdlib Require Import String Ascii NArith.
From stdpp Require Import base option list gmap sorting strings.

(** ** Python strings *)

(** A [str] is a list of code points; [py] embeds an ASCII literal. *)
Abbreviation pystr := (list N).

Definition py (s : string) : pystr := N_of_ascii <$> list_ascii_of_string s.

(** [str.isspace] on one code point (CPython's [_PyUnicode_IsWhitespace]). *)
Definition is_space (c : N) : bool :=
  ((9 <=? c) && (c <=? 13) || (28 <=? c) && (c <=? 32) ||
   (c =? 133) || (c =? 160) || (c =? 5760) ||
   (8192 <=? c) && (c <=? 8202) ||
   (c =? 8232) || (c =? 8233) || (c =? 8239) || (c =? 8287) ||
   (c =? 12288))%N.

Fixpoint lstrip (s : pystr) : pystr :=
  match s with
  | [] => []
  | c :: t => if is_space c then lstrip t else s
  end.

Definition rstrip (s : pystr) : pystr := reverse (lstrip (reverse s)).

(** [s.strip()] with no argument. *)
Definition strip (s : pystr) : pystr := rstrip (lstrip s).

(** Truth value of a [str] and of an [Optional[str]]. *)
Definition truthy (s : pystr) : bool :=
  match s with [] => false | _ :: _ => true end.

Definition truthy_opt (o : option pystr) : bool :=
  match o with None => false | Some s => truthy s end.

(** A string is blank when it is empty or made of whitespace only. *)
Definition blank (s : pystr) : bool := forallb is_space s.

(** ** Exceptions and outcomes *)

(** Instances of [Exception]: errors raised by libraries and components, and
    FastAPI's [HTTPException].  [KeyboardInterrupt] and [SystemExit] are not
    instances of [Exception] and are outside the model. *)
Inductive exn : Type :=
| Error (cls : string) (msg : pystr)
| HTTPException (status_code : N) (detail : pystr).

Inductive outcome (A : Type) : Type :=
| Returns (a : A)
| Raises (e : exn).
Arguments Returns {A} a.
Arguments Raises {A} e.

Definition is_raise {A} (o : outcome A) : bool :=
  match o with Returns _ => false | Raises _ => true end.

(** ** State and exception monad *)

Module PyM.
Definition M (W A : Type) : Type := W → outcome A * W.

Definition ret {W A} (a : A) : M W A := λ w, (Returns a, w).

Definition raise {W A} (e : exn) : M W A := λ w, (Raises e, w).

Definition bind {W A B} (m : M W A) (k : A → M W B) : M W B :=
  λ w, match m w with
       | (Returns a, w') => k a w'
       | (Raises e, w') => (Raises e, w')
       end.

(** [try: m except Exception as e: h e].  Effects performed by [m] before
    it raised are kept. *)
Definition try_except {W A} (m : M W A) (h : exn → M W A) : M W A :=
  λ w, match m w with
       | (Returns a, w') => (Returns a, w')
       | (Raises e, w') => h e w'
       end.

(** An external call whose result does not depend on the threaded state. *)
Definition call {W A} (o : outcome A) : M W A := λ w, (o, w).
End PyM.

Declare Scope py_scope.
Delimit Scope py_scope with py.
Notation "x <~ m ;; k" := (PyM.bind m (λ x, k))
  (at level 100, m at next level, right associativity) : py_scope.
Notation "m ;;; k" := (PyM.bind m (λ _, k))
  (at level 100, right associativity) : py_scope.
Open Scope py_scope.

(** ** External collaborators

    Everything the sources import from outside the repository, or from
    modules of the repository that are consumed only through their interface
    ([rag_pipeline.answer_query]), is a field of [Externals]. *)

(** A loaded Whisper model: [model.transcribe(path)] returns a dict of string
    fields or raises. *)
Record WhisperModel : Type :=
  { whisper_transcribe : pystr → outcome (gmap string pystr) }.

Class Externals : Type := {
  (** state owned by the RAG pipeline (lazily loaded models, vector store) *)
  PipelineState : Type;
  (** [rag_pipeline.answer_query] *)
  rag_pipeline : pystr → PipelineState → outcome pystr * PipelineState;
  (** [uuid.uuid4()]: the n-th value drawn by the process *)
  UUID : Type;
  uuid4 : nat → UUID;
  uuid_str : UUID → pystr;
  uuid_hex : UUID → pystr;
  (** [import whisper; whisper.load_model(size)] *)
  whisper_load_model : pystr → outcome WhisperModel;
  (** [os.makedirs(path, exist_ok=True)] *)
  os_makedirs : pystr → outcome unit;
  os_path_join : pystr → pystr → pystr;
  os_path_abspath : pystr → pystr;
  (** [gTTS(text=...)] and [tts.save(path)]; saving acts on the files *)
  gTTS_init : pystr → outcome unit;
  gTTS_save : pystr → pystr → gmap pystr N → outcome unit * gmap pystr N;
  (** [str(Path(__file__).parent / "scripts")] *)
  SCRIPTS_DIR : pystr;
}.

(** The mutable world a request runs in.  [queries] is a ghost log of the
    arguments [answer_query] has been invoked with, oldest first. *)
Record World {E : Externals} : Type := mkWorld {
  pipeline : PipelineState;
  files : gmap pystr N;
  uuid_draws : nat;
  queries : list pystr;
}.

Abbreviation Py := (PyM.M World).

Section primitives.
Context {E : Externals}.

Definition answer_query (query : pystr) : Py pystr := λ w,
  let '(r, p) := rag_pipeline query (pipeline w) in
  (r, {| pipeline := p; files := files w; uuid_draws := uuid_draws w;
         queries := queries w ++ [query] |}).

Definition uuid_uuid4 : Py UUID := λ w,
  (Returns (uuid4 (uuid_draws w)),
   {| pipeline := pipeline w; files := files w;
      uuid_draws := S (uuid_draws w); queries := queries w |}).

Definition os_path_exists (path : pystr) : Py bool := λ w,
  (Returns (bool_decide (is_Some (files w !! path))), w).

Definition os_path_getsize (path : pystr) : Py N := λ w,
  match files w !! path with
  | Some n => (Returns n, w)
  | None => (Raises (Error "FileNotFoundError" path), w)
  end.

Definition tts_save (text path : pystr) : Py unit := λ w,
  let '(r, fs) := gTTS_save text path (files w) in
  (r, {| pipeline := pipeline w; files := fs; uuid_draws := uuid_draws w;
         queries := queries w |}).
End primitives.

(** ** scripts/voice_input.py *)

Module VoiceInputProcessor.
Section defs.
Context {E : Externals}.

Record t : Type := { model : option WhisperModel }.

(** [__init__]: Whisper is optional, a failed load leaves [model = None]. *)
Definition init (model_size : pystr) : Py t :=
  PyM.try_except
    (m <~ PyM.call (whisper_load_model model_size) ;;
     PyM.ret {| model := Some m |})
    (λ _, PyM.ret {| model := None |}).

Definition transcribe (self : t) (audio_path : pystr) : Py (option pystr) :=
  match model self with
  | None => PyM.ret None
  | Some m =>
      PyM.try_except
        (result <~ PyM.call (whisper_transcribe m audio_path) ;;
         let text := strip (default [] (result !! "text"%string)) in
         PyM.ret (if truthy text then Some text else None))
        (λ _, PyM.ret None)
  end.
End defs.
End VoiceInputProcessor.

(** ** scripts/voice_output.py *)

Module VoiceOutputProcessor.
Section defs.
Context {E : Externals}.

Record t : Type := { output_dir : pystr }.

Definition init (output_dir : pystr) : Py t :=
  PyM.call (os_makedirs output_dir) ;;;
  PyM.ret {| output_dir := output_dir |}.

Definition speak (self : t) (text : pystr) : Py (option pystr) :=
  PyM.try_except
    (u <~ uuid_uuid4 ;;
     let filename := uuid_hex u ++ py ".mp3" in
     let filepath := os_path_abspath (os_path_join (output_dir self) filename) in
     PyM.call (gTTS_init text) ;;;
     tts_save text filepath ;;;
     (* basic sanity check *)
     present <~ os_path_exists filepath ;;
     too_small <~ (if negb present then PyM.ret true
                   else size <~ os_path_getsize filepath ;;
                        PyM.ret (size <? 1000)%N) ;;
     if too_small : bool then PyM.ret None else PyM.ret (Some filepath))
    (λ _, PyM.ret None).
End defs.
End VoiceOutputProcessor.

(** ** scripts/voice_chatbot.py *)

Module VoiceChatbot.
Section defs.
Context {E : Externals}.

Record t : Type := {
  voice_input : VoiceInputProcessor.t;
  voice_output : VoiceOutputProcessor.t;
}.

(** The dict [{"text": ..., "audio": ...}] returned by [process]. *)
Record response : Type := { text : pystr; audio : option pystr }.

Definition init : Py t :=
  vi <~ VoiceInputProcessor.init (py "base") ;;
  vo <~ VoiceOutputProcessor.init (py "voice_outputs") ;;
  PyM.ret {| voice_input := vi; voice_output := vo |}.

Definition unable : response :=
  {| text := py "Unable to process input."; audio := None |}.

Definition process (self : t) (text_input audio_path : option pystr)
  : Py response :=
  (* Step 1: resolve input text *)
  text_input <~
    match audio_path with
    | Some path =>
        if truthy path then
          transcribed <~ VoiceInputProcessor.transcribe (voice_input self) path ;;
          PyM.ret (if truthy_opt transcribed then transcribed else text_input)
        else PyM.ret text_input
    | None => PyM.ret text_input
    end ;;
  match text_input with
  | Some query =>
      if truthy query then
        (* Step 2: core chatbot response *)
        text_response <~ answer_query query ;;
        (* Step 3: voice output only if the input was audio *)
        audio_response <~
          (if truthy_opt audio_path
           then VoiceOutputProcessor.speak (voice_output self) text_response
           else PyM.ret None) ;;
        PyM.ret {| text := text_response; audio := audio_response |}
      else PyM.ret unable
  | None => PyM.ret unable
  end.
End defs.
End VoiceChatbot.

(** ** main.py *)

Module ChatRequest.
Record t : Type := { session_id : option pystr; message : pystr }.
End ChatRequest.

Module ChatResponse.
(** [confidence] is declared [Optional[float]] and is always [None]. *)
Record t : Type :=
  { reply : pystr; session_id : pystr; confidence : option Z }.
End ChatResponse.

Module HealthResponse.
Record t : Type := {
  status : pystr;
  voice_input_available : bool;
  voice_output_available : bool;
}.
End HealthResponse.

Module Main.
Section defs.
Context {E : Externals}.

(** The module-level globals set by [lifespan]. *)
Record globals : Type := {
  voice_input_processor : option VoiceInputProcessor.t;
  voice_output_processor : option VoiceOutputProcessor.t;
}.

(** The startup half of [lifespan] (everything before [yield]). *)
Definition lifespan : Py globals :=
  vip <~ PyM.try_except
           (p <~ VoiceInputProcessor.init (py "base") ;; PyM.ret (Some p))
           (λ _, PyM.ret None) ;;
  vop <~ PyM.try_except
           (let voice_output_dir := os_path_join SCRIPTS_DIR (py "voice_outputs") in
            p <~ VoiceOutputProcessor.init voice_output_dir ;; PyM.ret (Some p))
           (λ _, PyM.ret None) ;;
  (* test RAG pipeline initialization *)
  PyM.try_except
    (answer_query (py "test initialization") ;;; PyM.ret tt)
    (λ _, PyM.ret tt) ;;;
  PyM.ret {| voice_input_processor := vip; voice_output_processor := vop |}.

Definition generate_session_id : Py pystr :=
  u <~ uuid_uuid4 ;; PyM.ret (uuid_str u).

Definition apology : pystr :=
  py "I apologize, but I'm temporarily unable to process your request. Please try again.".

Definition safe_chatbot_call (user_message : pystr) : Py pystr :=
  PyM.try_except (answer_query user_message) (λ _, PyM.ret apology).

Definition health_check (g : globals) : HealthResponse.t :=
  {| HealthResponse.status := py "ok";
     HealthResponse.voice_input_available :=
       match voice_input_processor g with
       | Some p => bool_decide (is_Some (VoiceInputProcessor.model p))
       | None => false
       end;
     HealthResponse.voice_output_available :=
       bool_decide (is_Some (voice_output_processor g)) |}.

Definition chat (request : ChatRequest.t) : Py ChatResponse.t :=
  (* generate session ID if not provided *)
  session_id <~
    match ChatRequest.session_id request with
    | Some s => if truthy s then PyM.ret s else generate_session_id
    | None => generate_session_id
    end ;;
  (* validate message *)
  if negb (truthy (ChatRequest.message request))
     || negb (truthy (strip (ChatRequest.message request)))
  then PyM.raise (HTTPException 400 (py "Message cannot be empty"))
  else
    reply <~ PyM.try_except
               (safe_chatbot_call (strip (ChatRequest.message request)))
               (λ _, PyM.raise
                       (HTTPException 500 (py "Chatbot temporarily unavailable"))) ;;
    PyM.ret {| ChatResponse.reply := reply;
               ChatResponse.session_id := session_id;
               ChatResponse.confidence := None |}.
End defs.
End Main.

(** ** The vector store

    [langchain_community.vectorstores.Chroma] over a persisted client, as
    far as the two scripts use it: a named collection is a finite map from
    chunk identifier to stored entry; opening a store gets or creates the
    collection; adding documents without explicit identifiers draws one
    [uuid4] per document and upserts; a similarity search ranks every entry
    against the query and keeps the best [k]. *)

Record Document : Type :=
  { page_content : pystr; metadata : gmap string pystr }.

(** [HuggingFaceEmbeddings(model_name=...)] and the store's ranking.  Scores
    are only ever compared, so they are kept abstract with a decidable total
    preorder; a larger score means a closer match. *)
Class Embeddings : Type := {
  Vector : Type;
  Score : Type;
  embed : string → pystr → Vector;
  similarity : Vector → Vector → Score;
  score_le : relation Score;
  score_le_dec :: RelDecision score_le;
  score_le_total :: Total score_le;
  score_le_trans :: Transitive score_le;
}.

(** What opening the store for reading depends on: loading the embedding
    model and opening the persistent client can both fail, and the index
    enumerates the entries of a collection in an order of its own (for the
    real store, the order of insertion), which decides between equal
    scores. *)
Class StoreBackend : Type := {
  (** [HuggingFaceEmbeddings(model_name=...)] *)
  HuggingFaceEmbeddings_init : string → outcome unit;
  (** the persistent client behind [Chroma(persist_directory=...)] *)
  chroma_client_open : string → outcome unit;
  index_order : ∀ {A : Type}, gmap pystr A → list (pystr * A);
  index_order_perm : ∀ (A : Type) (m : gmap pystr A),
    index_order m ≡ₚ map_to_list m;
}.

Module Chroma.
Section defs.
Context {E : Externals} {V : Embeddings} {B : StoreBackend}.

Record Entry : Type := { document : Document; embedding : Vector }.

(** What persists between processes: the collections on disk, keyed by
    (persist directory, collection name), and the number of UUIDs drawn.
    [upserted] is a ghost log of the identifiers written, oldest first. *)
Record Client : Type := {
  disk : gmap (string * string) (gmap pystr Entry);
  drawn : nat;
  upserted : list pystr;
}.

Record t : Type := {
  persist_directory : string;
  embedding_function : string;
  collection_name : string;
}.

Local Abbreviation Db := (PyM.M Client).

Definition key (self : t) : string * string :=
  (persist_directory self, collection_name self).

Definition collection (self : t) (c : Client) : gmap pystr Entry :=
  default ∅ (disk c !! key self).

(** The get-or-create step of [Chroma(persist_directory=,
    embedding_function=, collection_name=)]. *)
Definition init (persist_directory embedding_function collection_name : string)
  : Db t := λ c,
  let self := {| persist_directory := persist_directory;
                 embedding_function := embedding_function;
                 collection_name := collection_name |} in
  (Returns self,
   {| disk := <[key self := collection self c]> (disk c);
      drawn := drawn c; upserted := upserted c |}).

(** [[str(uuid.uuid4()) for _ in texts]] *)
Definition fresh_ids (n : nat) : Db (list pystr) := λ c,
  (Returns ((λ i, uuid_str (uuid4 i)) <$> seq (drawn c) n),
   {| disk := disk c; drawn := drawn c + n; upserted := upserted c |}).

Definition entry_of (self : t) (d : Document) : Entry :=
  {| document := d;
     embedding := embed (embedding_function self) (page_content d) |}.

(** [collection.upsert(ids=, embeddings=, documents=, metadatas=)] *)
Definition upsert (coll : gmap pystr Entry) (ids : list pystr)
    (entries : list Entry) : gmap pystr Entry :=
  foldl (λ m ie, <[ie.1 := ie.2]> m) coll (zip ids entries).

Definition add_documents (self : t) (documents : list Document)
    (ids : list pystr) : Db (list pystr) := λ c,
  (Returns ids,
   {| disk := <[key self :=
                  upsert (collection self c) ids (entry_of self <$> documents)]>
                (disk c);
      drawn := drawn c;
      upserted := upserted c ++ take (length documents) ids |}).

(** [Chroma.from_documents(documents=, embedding=, persist_directory=,
    collection_name=)] with no [ids] argument. *)
Definition from_documents (documents : list Document)
    (embedding persist_directory collection_name : string) : Db t :=
  self <~ init persist_directory embedding collection_name ;;
  ids <~ fresh_ids (length documents) ;;
  add_documents self documents ids ;;;
  PyM.ret self.

(** The client writes through; [persist()] has nothing left to flush. *)
Definition persist (self : t) : Db unit := PyM.ret tt.

(** [vectordb._collection.count()] *)
Definition count (self : t) : Db nat := λ c,
  (Returns (size (collection self c)), c).


(** Best match first. *)
Definition closer : relation (Document * Score) := λ a b, score_le b.2 a.2.

Global Instance closer_dec : RelDecision closer.
Proof. intros a b. unfold closer. apply _. Defined.



(** [as_retriever(search_kwargs={"k": k})], search type "similarity". *)
Record VectorStoreRetriever : Type := { vectorstore : t; search_k : nat }.

Definition as_retriever (self : t) (k : nat) : VectorStoreRetriever :=
  {| vectorstore := self; search_k := k |}.


(** [HuggingFaceEmbeddings(model_name=...)]: the model is loaded, which can
    fail; the embedding function is then known by its model name. *)
Definition HuggingFaceEmbeddings (model_name : string) : Db string :=
  PyM.call (HuggingFaceEmbeddings_init model_name) ;;;
  PyM.ret model_name.

(** [Chroma(persist_directory=, embedding_function=, collection_name=)] as
    the retriever calls it: the persistent client is opened, which can fail,
    and the collection is then got or created. *)
Definition new (persist_directory embedding_function collection_name : string)
  : Db t :=
  PyM.call (chroma_client_open persist_directory) ;;;
  init persist_directory embedding_function collection_name.
End defs.

Abbreviation Db := (PyM.M Client).
End Chroma.

(** ** scripts/retriever.py *)

Module Retriever.
Section defs.
Context {E : Externals} {V : Embeddings} {B : StoreBackend}.

Definition get_retriever : Chroma.Db Chroma.VectorStoreRetriever :=
  embeddings <~ Chroma.HuggingFaceEmbeddings
                  "sentence-transformers/all-MiniLM-L6-v2" ;;
  vectordb <~ Chroma.new "chroma_day1" embeddings "legal_knowledge" ;;
  PyM.ret (Chroma.as_retriever vectordb 3).
End defs.
End Retriever.

(** ** scripts/build_vectordb.py *)

Module BuildVectordb.
Section defs.
Context {E : Externals} {V : Embeddings}.
(** [load_documents.load_documents]: the documents of one source file. *)
Variable load_documents : string → outcome (list Document).

Definition DATA_FILES : list string :=
  [ "../data/normalized_ipc.json";
    "../data/normalized_crpc.json";
    "../data/normalized_glossary.json";
    "../data/normalized_amendments.json" ]%string.

(** [for path in paths: all_docs.extend(load_documents(path))] *)
Fixpoint load_all (all_docs : list Document) (paths : list string)
  : Chroma.Db (list Document) :=
  match paths with
  | [] => PyM.ret all_docs
  | path :: rest =>
      docs <~ PyM.call (load_documents path) ;;
      load_all (all_docs ++ docs) rest
  end.

(** What the script prints: [len(all_docs)] and the collection count. *)
Record report : Type := { documents : nat; db_count : nat }.

Definition build_vectordb : Chroma.Db report :=
  all_docs <~ load_all [] DATA_FILES ;;
  let embeddings := "sentence-transformers/all-MiniLM-L6-v2"%string in
  vectordb <~ Chroma.from_documents all_docs embeddings
                "chroma_day1" "legal_knowledge" ;;
  Chroma.persist vectordb ;;;
  n <~ Chroma.count vectordb ;;
  PyM.ret {| documents := length all_docs; db_count := n |}.
End defs.
End BuildVectordb.

(** ** Concrete environments

    Two inhabitants of [Externals], used to run the model on concrete
    inputs: in [nominal] every collaborator answers except Whisper, which is
    not installed; in [outage] every collaborator fails. *)

Definition echo_pipeline (query : pystr) (served : nat)
  : outcome pystr * nat :=
  (Returns (py "You asked: " ++ query), S served).

Definition id_of_nat (n : nat) : pystr := py "id-" ++ [N.of_nat n].

Definition write_mp3 (text path : pystr) (fs : gmap pystr N)
  : outcome unit * gmap pystr N :=
  (Returns tt, <[path := 2048%N]> fs).

Definition nominal : Externals := {|
  PipelineState := nat;
  rag_pipeline := echo_pipeline;
  UUID := nat;
  uuid4 := λ n, n;
  uuid_str := id_of_nat;
  uuid_hex := id_of_nat;
  whisper_load_model := λ _, Raises (Error "ModuleNotFoundError" (py "whisper"));
  os_makedirs := λ _, Returns tt;
  os_path_join := λ d f, d ++ py "/" ++ f;
  os_path_abspath := λ p, py "/srv/" ++ p;
  gTTS_init := λ _, Returns tt;
  gTTS_save := write_mp3;
  SCRIPTS_DIR := py "scripts";
|}.

Definition outage : Externals := {|
  PipelineState := nat;
  rag_pipeline := λ _ served,
    (Raises (Error "RuntimeError" (py "vector store unavailable")), served);
  UUID := nat;
  uuid4 := λ n, n;
  uuid_str := id_of_nat;
  uuid_hex := id_of_nat;
  whisper_load_model := λ _, Raises (Error "ModuleNotFoundError" (py "whisper"));
  os_makedirs := λ _, Raises (Error "PermissionError" (py "voice_outputs"));
  os_path_join := λ d f, d ++ py "/" ++ f;
  os_path_abspath := λ p, py "/srv/" ++ p;
  gTTS_init := λ _, Raises (Error "gTTSError" (py "no network"));
  gTTS_save := λ _ _ fs, (Raises (Error "gTTSError" (py "no network")), fs);
  SCRIPTS_DIR := py "scripts";
|}.

(** A fresh process: nothing served, no files, no UUID drawn, no query. *)
Definition boot {E : Externals} (p : PipelineState) : World :=
  {| pipeline := p; files := ∅; uuid_draws := 0; queries := [] |}.

Definition nominal_boot : @World nominal := @boot nominal 0.
Definition outage_boot : @World outage := @boot outage 0.

(** A voice orchestrator whose Whisper model failed to load. *)
Definition deaf_bot : VoiceChatbot.t :=
  {| VoiceChatbot.voice_input := {| VoiceInputProcessor.model := None |};
     VoiceChatbot.voice_output :=
       {| VoiceOutputProcessor.output_dir := py "voice_outputs" |} |}.

(** A Whisper model that hears only silence. *)
Definition silent_model : WhisperModel :=
  {| whisper_transcribe := λ _, Returns {[ "text"%string := py "   " ]} |}.

(** ** Observations used in the statements *)



Definition reply_of (o : outcome ChatResponse.t) : outcome pystr :=
  match o with
  | Returns r => Returns (ChatResponse.reply r)
  | Raises e => Raises e
  end.

(** ** Concrete data for the vector store *)

(** A toy embedding: a text is embedded as its first code point and two
    vectors are compared by negated squared distance (0 for identical
    vectors, more negative the further apart). *)
Definition first_code_point (s : pystr) : Z :=
  match s with c :: _ => Z.of_N c | [] => 0%Z end.

Definition toy_embeddings : Embeddings := {|
  Vector := Z;
  Score := Z;
  embed := λ _ s, first_code_point s;
  similarity := λ a b, (- ((a - b) * (a - b)))%Z;
  score_le := Z.le;
  score_le_dec := _;
  score_le_total := _;
  score_le_trans := _;
|}.

(** The store both scripts open. *)
Definition legal_knowledge : Chroma.t :=
  {| Chroma.persist_directory := "chroma_day1";
     Chroma.embedding_function := "sentence-transformers/all-MiniLM-L6-v2";
     Chroma.collection_name := "legal_knowledge" |}.


(** A backend on a machine without the embedding model. *)
Definition offline_backend : StoreBackend := {|
  HuggingFaceEmbeddings_init := λ _,
    Raises (Error "OSError" (py "model not found"));
  chroma_client_open := λ _, Returns tt;
  index_order := λ A m, map_to_list m;
  index_order_perm := λ A m, Permutation_refl (map_to_list m);
|}.

(** A small corpus: two sections in the first source file, one in the
    second, none in the others. *)
Definition load_sample (path : string) : outcome (list Document) :=
  if String.eqb path "../data/normalized_ipc.json" then
    Returns [ {| page_content := py "IPC 420: cheating"; metadata := ∅ |};
              {| page_content := py "IPC 302: murder"; metadata := ∅ |} ]
  else if String.eqb path "../data/normalized_crpc.json" then
    Returns [ {| page_content := py "CrPC 154: FIR"; metadata := ∅ |} ]
  else Returns [].

Definition empty_client : Chroma.Client (V := toy_embeddings) :=
  {| Chroma.disk := ∅; Chroma.drawn := 0; Chroma.upserted := [] |}.

(** A store left behind by an earlier build of a different corpus. *)
Definition stale_entry : Chroma.Entry (V := toy_embeddings) :=
  Chroma.entry_of legal_knowledge
    {| page_content := py "IPC 309: repealed draft"; metadata := ∅ |}.

Definition stale_client : Chroma.Client (V := toy_embeddings) :=
  {| Chroma.disk := {[ Chroma.key legal_knowledge := {[ py "old-1" := stale_entry ]} ]};
     Chroma.drawn := 0; Chroma.upserted := [] |}.

(** ** Derived definitions used in the statements *)

Section derived.
Context {E : Externals} {V : Embeddings} {B : StoreBackend}.
Variable load_documents : string → outcome (list Document).
Implicit Types (c : Chroma.Client) (coll : gmap pystr Chroma.Entry).

(** The session step of [chat] touches nothing but the UUID counter. *)
Definition session_step (sid : option pystr) : Py pystr :=
  match sid with
  | Some s => if truthy s then PyM.ret s else Main.generate_session_id
  | None => Main.generate_session_id
  end.




(** The identifiers written between two states of the client. *)
Definition run_ids c c' : list pystr :=
  drop (length (Chroma.upserted c)) (Chroma.upserted c').

(** The n-th identifier [from_documents] generates. *)
Definition draw (n : nat) : pystr := uuid_str (uuid4 n).

(** Loading reads the source files only. *)
Fixpoint collect (all_docs : list Document) (paths : list string)
  : outcome (list Document) :=
  match paths with
  | [] => Returns all_docs
  | path :: rest =>
      match load_documents path with
      | Returns docs => collect (all_docs ++ docs) rest
      | Raises e => Raises e
      end
  end.

(** One run of the script, in closed form. *)
Definition built (docs : list Document) c : Chroma.Client :=
  let ids := draw <$> seq (Chroma.drawn c) (length docs) in
  {| Chroma.disk :=
       <[Chroma.key legal_knowledge :=
           Chroma.upsert (Chroma.collection legal_knowledge c) ids
             (Chroma.entry_of legal_knowledge <$> docs)]> (Chroma.disk c);
     Chroma.drawn := Chroma.drawn c + length docs;
     Chroma.upserted := Chroma.upserted c ++ ids |}.
End derived.

(** ** main.py: the voice endpoint *)

(** [try: m finally: f].  [f] runs whatever [m] did; the outcome is that of
    [m] unless [f] itself raises. *)
Definition try_finally {W A} (m : PyM.M W A) (f : PyM.M W unit) : PyM.M W A :=
  λ w, let '(o, w1) := m w in
       match f w1 with
       | (Returns _, w2) => (o, w2)
       | (Raises e, w2) => (Raises e, w2)
       end.

(** What [chat_voice] uses beyond [Externals]: the temporary directory, file
    writes and reads, and base64.  File contents are lists of bytes. *)
Class Uploads : Type := {
  (** [str(Path(__file__).parent / "temp_audio")] *)
  TEMP_AUDIO_DIR : pystr;
  (** [temp_dir.mkdir(exist_ok=True)] *)
  path_mkdir : pystr → outcome unit;
  (** [open(path, "wb")], [f.write(content)], [path.unlink()] *)
  open_wb : pystr → outcome unit;
  file_write : pystr → list N → outcome unit;
  path_unlink : pystr → outcome unit;
  (** [open(path, "rb").read()] *)
  read_bytes : pystr → outcome (list N);
  (** [base64.b64encode(data).decode('utf-8')] *)
  b64encode : list N → pystr;
}.

(** FastAPI's [UploadFile]: the client's file name and what [await
    audio.read()] gives. *)
Module UploadFile.
Record t : Type := { filename : pystr; read : outcome (list N) }.
End UploadFile.

Module VoiceChatResponse.
Record t : Type := {
  reply : pystr;
  session_id : pystr;
  audio_base64 : option pystr;
  audio_path : option pystr;
  transcribed_text : option pystr;
}.
End VoiceChatResponse.

Section voice_endpoint.
Context {E : Externals} {U : Uploads}.

Definition with_files (w : World) (fs : gmap pystr N) : World :=
  {| pipeline := pipeline w; files := fs; uuid_draws := uuid_draws w;
     queries := queries w |}.

(** Opening for writing creates the file, or truncates it. *)
Definition fs_open_wb (path : pystr) : Py unit := λ w,
  match open_wb path with
  | Returns _ => (Returns tt, with_files w (<[path := 0%N]> (files w)))
  | Raises e => (Raises e, w)
  end.

Definition fs_write (path : pystr) (content : list N) : Py unit := λ w,
  match file_write path content with
  | Returns _ =>
      (Returns tt, with_files w (<[path := N.of_nat (length content)]> (files w)))
  | Raises e => (Raises e, w)
  end.

Definition fs_unlink (path : pystr) : Py unit := λ w,
  match files w !! path with
  | None => (Raises (Error "FileNotFoundError" path), w)
  | Some _ =>
      match path_unlink path with
      | Returns _ => (Returns tt, with_files w (delete path (files w)))
      | Raises e => (Raises e, w)
      end
  end.

Definition voice_unavailable : exn :=
  HTTPException 503
    (py "Voice input is not available. Speech recognition is disabled.").

Definition not_transcribed : exn :=
  HTTPException 400
    (py "Could not transcribe audio. Please ensure the audio is clear and in a supported format.").

Definition chat_voice (g : Main.globals) (audio : UploadFile.t)
    (session_id : option pystr) (return_audio : bool)
  : Py VoiceChatResponse.t :=
  (* generate session ID if not provided *)
  session_id <~
    match session_id with
    | Some s => if truthy s then PyM.ret s else Main.generate_session_id
    | None => Main.generate_session_id
    end ;;
  (* check if voice input is available *)
  match Main.voice_input_processor g with
  | None => PyM.raise voice_unavailable
  | Some voice_input_processor =>
  match VoiceInputProcessor.model voice_input_processor with
  | None => PyM.raise voice_unavailable
  | Some _ =>
    (* save uploaded file temporarily *)
    let temp_dir := TEMP_AUDIO_DIR in
    PyM.call (path_mkdir temp_dir) ;;;
    u <~ uuid_uuid4 ;;
    let temp_audio_path :=
      os_path_join temp_dir (uuid_hex u ++ py "_" ++ UploadFile.filename audio) in
    try_finally
      (fs_open_wb temp_audio_path ;;;
       content <~ PyM.call (UploadFile.read audio) ;;
       fs_write temp_audio_path content ;;;
       (* transcribe audio to text *)
       transcribed_text <~
         VoiceInputProcessor.transcribe voice_input_processor temp_audio_path ;;
       if negb (truthy_opt transcribed_text) then PyM.raise not_transcribed
       else
         (* get chatbot response *)
         reply <~ PyM.try_except
                    (Main.safe_chatbot_call (default [] transcribed_text))
                    (λ _, PyM.raise
                            (HTTPException 500 (py "Chatbot temporarily unavailable"))) ;;
         (* generate audio response if requested *)
         audio_base64 <~
           match Main.voice_output_processor g with
           | Some voice_output_processor =>
               if return_audio then
                 PyM.try_except
                   (audio_path <~ VoiceOutputProcessor.speak voice_output_processor reply ;;
                    match audio_path with
                    | Some path =>
                        present <~ (if truthy path then os_path_exists path
                                    else PyM.ret false) ;;
                        if present : bool then
                          audio_data <~ PyM.call (read_bytes path) ;;
                          PyM.ret (Some (b64encode audio_data))
                        else PyM.ret None
                    | None => PyM.ret None
                    end)
                   (λ _, PyM.ret None)
               else PyM.ret None
           | None => PyM.ret None
           end ;;
         PyM.ret {| VoiceChatResponse.reply := reply;
                    VoiceChatResponse.session_id := session_id;
                    VoiceChatResponse.audio_base64 := audio_base64;
                    VoiceChatResponse.audio_path := None;
                    VoiceChatResponse.transcribed_text := transcribed_text |})
      (* cleanup temporary audio file *)
      (present <~ os_path_exists temp_audio_path ;;
       if present : bool then
         PyM.try_except (fs_unlink temp_audio_path) (λ _, PyM.ret tt)
       else PyM.ret tt)
  end
  end.
End voice_endpoint.

(** ** Parts of [chat_voice], named for the statements *)

Section voice_parts.
Context {E : Externals} {U : Uploads}.

(** The temporary path used when [n] UUIDs have been drawn before. *)
Definition temp_path_of (audio : UploadFile.t) (n : nat) : pystr :=
  os_path_join TEMP_AUDIO_DIR
    (uuid_hex (uuid4 n) ++ py "_" ++ UploadFile.filename audio).

(** The [finally] block. *)
Definition cleanup_temp (temp_audio_path : pystr) : Py unit :=
  present <~ os_path_exists temp_audio_path ;;
  if present : bool then
    PyM.try_except (fs_unlink temp_audio_path) (λ _, PyM.ret tt)
  else PyM.ret tt.

(** The optional audio reply. *)
Definition encode_reply_audio (g : Main.globals) (return_audio : bool)
    (reply : pystr) : Py (option pystr) :=
  match Main.voice_output_processor g with
  | Some voice_output_processor =>
      if return_audio then
        PyM.try_except
          (audio_path <~ VoiceOutputProcessor.speak voice_output_processor reply ;;
           match audio_path with
           | Some path =>
               present <~ (if truthy path then os_path_exists path
                           else PyM.ret false) ;;
               if present : bool then
                 audio_data <~ PyM.call (read_bytes path) ;;
                 PyM.ret (Some (b64encode audio_data))
               else PyM.ret None
           | None => PyM.ret None
           end)
          (λ _, PyM.ret None)
      else PyM.ret None
  | None => PyM.ret None
  end.

(** The [try] block. *)
Definition save_and_answer (g : Main.globals)
    (voice_input_processor : VoiceInputProcessor.t) (audio : UploadFile.t)
    (session_id : pystr) (return_audio : bool) (temp_audio_path : pystr)
  : Py VoiceChatResponse.t :=
  fs_open_wb temp_audio_path ;;;
  content <~ PyM.call (UploadFile.read audio) ;;
  fs_write temp_audio_path content ;;;
  transcribed_text <~
    VoiceInputProcessor.transcribe voice_input_processor temp_audio_path ;;
  if negb (truthy_opt transcribed_text) then PyM.raise not_transcribed
  else
    reply <~ PyM.try_except
               (Main.safe_chatbot_call (default [] transcribed_text))
               (λ _, PyM.raise
                       (HTTPException 500 (py "Chatbot temporarily unavailable"))) ;;
    audio_base64 <~ encode_reply_audio g return_audio reply ;;
    PyM.ret {| VoiceChatResponse.reply := reply;
               VoiceChatResponse.session_id := session_id;
               VoiceChatResponse.audio_base64 := audio_base64;
               VoiceChatResponse.audio_path := None;
               VoiceChatResponse.transcribed_text := transcribed_text |}.

(** The reply [safe_chatbot_call] gives for a query in a pipeline state. *)
Definition reply_for (query : pystr) (p : PipelineState) : pystr :=
  match (rag_pipeline query p).1 with
  | Returns answer => answer
  | Raises _ => Main.apology
  end.
End voice_parts.

(** ** Parts of [process], named for the statements *)

Section process_parts.
Context {E : Externals}.

(** Step 1 of [process]. *)
Definition resolve_input (self : VoiceChatbot.t)
    (text_input audio_path : option pystr) : Py (option pystr) :=
  match audio_path with
  | Some path =>
      if truthy path then
        transcribed <~ VoiceInputProcessor.transcribe
                         (VoiceChatbot.voice_input self) path ;;
        PyM.ret (if truthy_opt transcribed then transcribed else text_input)
      else PyM.ret text_input
  | None => PyM.ret text_input
  end.

(** Steps 2 and 3 of [process]. *)
Definition answer_and_speak (self : VoiceChatbot.t) (audio_path : option pystr)
    (query : pystr) : Py VoiceChatbot.response :=
  text_response <~ answer_query query ;;
  audio_response <~
    (if truthy_opt audio_path
     then VoiceOutputProcessor.speak (VoiceChatbot.voice_output self) text_response
     else PyM.ret None) ;;
  PyM.ret {| VoiceChatbot.text := text_response;
             VoiceChatbot.audio := audio_response |}.

(** What the transcription of the audio path gives, if anything. *)
Definition heard (self : VoiceChatbot.t) (audio_path : option pystr) (w : World)
  : option pystr :=
  match audio_path with
  | Some path =>
      if truthy path then
        match (VoiceInputProcessor.transcribe (VoiceChatbot.voice_input self)
                 path w).1 with
        | Returns t => t
        | Raises _ => None
        end
      else None
  | None => None
  end.
End process_parts.

(** ** More concrete environments *)

(** Text to speech that produces a file too small to be audio. *)
Definition stub_tts : Externals := {|
  PipelineState := nat;
  rag_pipeline := echo_pipeline;
  UUID := nat;
  uuid4 := λ n, n;
  uuid_str := id_of_nat;
  uuid_hex := id_of_nat;
  whisper_load_model := λ _, Raises (Error "ModuleNotFoundError" (py "whisper"));
  os_makedirs := λ _, Returns tt;
  os_path_join := λ d f, d ++ py "/" ++ f;
  os_path_abspath := λ p, py "/srv/" ++ p;
  gTTS_init := λ _, Returns tt;
  gTTS_save := λ _ path fs, (Returns tt, <[path := 12%N]> fs);
  SCRIPTS_DIR := py "scripts";
|}.

Definition stub_tts_boot : @World stub_tts := @boot stub_tts 0.

(** A Whisper model that hears the same question in every clip. *)
Definition fir_model : WhisperModel :=
  {| whisper_transcribe := λ _, Returns {[ "text"%string := py " What is an FIR? " ]} |}.

(** A Whisper result without a text field. *)
Definition mute_model : WhisperModel :=
  {| whisper_transcribe := λ _, Returns ∅ |}.

Definition local_uploads : Uploads := {|
  TEMP_AUDIO_DIR := py "temp_audio";
  path_mkdir := λ _, Returns tt;
  open_wb := λ _, Returns tt;
  file_write := λ _ _, Returns tt;
  path_unlink := λ _, Returns tt;
  read_bytes := λ _, Returns [73; 68; 51]%N;
  b64encode := λ data, py "b64:" ++ data;
|}.

Definition clip : UploadFile.t :=
  {| UploadFile.filename := py "clip.wav";
     UploadFile.read := Returns [82; 73; 70; 70]%N |}.

(** Globals after a startup in which Whisper loaded [m]. *)
Definition serving (m : option WhisperModel) : Main.globals :=
  {| Main.voice_input_processor := Some {| VoiceInputProcessor.model := m |};
     Main.voice_output_processor :=
       Some {| VoiceOutputProcessor.output_dir := py "scripts/voice_outputs" |} |}.

(** A corpus whose glossary file is malformed. *)
Definition load_broken (path : string) : outcome (list Document) :=
  if String.eqb path "../data/normalized_glossary.json" then
    Raises (Error "KeyError" (py "text"))
  else load_sample path.

(** * Proofs *)

Ltac py_unfold :=
  unfold PyM.bind, PyM.ret, PyM.raise, PyM.try_except, PyM.call in *.

(** ** Facts about [strip] *)

Section strip_facts.
Implicit Types (s t : pystr) (c : N).

Lemma lstrip_head s c t : lstrip s = c :: t → is_space c = false.
Proof.
  induction s as [|a s IH]; simpl; [done|].
  destruct (is_space a) eqn:Ha; [done|].
  intros [= -> _]. done.
Qed.

Lemma lstrip_snoc_keep s c :
  is_space c = false → ∃ r, lstrip (s ++ [c]) = r ++ [c].
Proof.
  intros Hc. induction s as [|a s [r IH]]; simpl.
  - rewrite Hc. by exists [].
  - destruct (is_space a); [by exists r|].
    by exists (a :: s).
Qed.

Lemma lstrip_nil_iff s : lstrip s = [] ↔ blank s = true.
Proof.
  unfold blank. induction s as [|a s IH]; simpl; [done|].
  destruct (is_space a); simpl; [done|]. split; discriminate.
Qed.

Lemma strip_head s c t : strip s = c :: t → is_space c = false.
Proof.
  unfold strip, rstrip.
  destruct (lstrip s) as [|a u] eqn:Hu; [discriminate|].
  pose proof (lstrip_head _ _ _ Hu) as Ha.
  rewrite reverse_cons.
  destruct (lstrip_snoc_keep (reverse u) a Ha) as [r ->].
  rewrite reverse_app. simpl. by intros [= <- _].
Qed.


Lemma blank_reverse s : blank (reverse s) = blank s.
Proof.
  unfold blank. apply eq_true_iff_eq.
  rewrite !forallb_forall.
  by setoid_rewrite <- list_elem_of_In; setoid_rewrite elem_of_reverse.
Qed.

Lemma blank_lstrip s : blank (lstrip s) = blank s.
Proof.
  unfold blank. induction s as [|a s IH]; simpl; [done|].
  destruct (is_space a) eqn:Ha; simpl; [done|]. by rewrite Ha.
Qed.

Lemma strip_nil_iff s : strip s = [] ↔ blank s = true.
Proof.
  unfold strip, rstrip.
  rewrite <- (blank_lstrip s), <- (blank_reverse (lstrip s)).
  rewrite <- lstrip_nil_iff. split.
  - intros H. apply (f_equal reverse) in H.
    by rewrite reverse_involutive in H.
  - intros ->. done.
Qed.

Lemma strip_truthy_not_blank s : truthy (strip s) = true → blank (strip s) = false.
Proof.
  destruct (strip s) as [|c t] eqn:Hs; [done|]. intros _.
  unfold blank. simpl. by rewrite (strip_head _ _ _ Hs).
Qed.
End strip_facts.


(** ** Speech to text *)


(** A transcription made of whitespace only is reported as [None]. *)
Example transcribe_silence :
  VoiceInputProcessor.transcribe (E := nominal)
    {| VoiceInputProcessor.model := Some silent_model |} (py "clip.wav") nominal_boot
  = (Returns None, nominal_boot).
Proof. reflexivity. Qed.

(** ** Text to speech *)

(** C8: for every reply text, [speak] returns, without raising, either
    [None] or the path of a file that exists and holds at least 1000
    bytes. *)
Theorem speak_path_or_none `{Externals}
    (self : VoiceOutputProcessor.t) (text : pystr) (w : World) :
  ∃ r w', VoiceOutputProcessor.speak self text w = (Returns r, w') ∧
          match r with
          | None => True
          | Some path => ∃ n, files w' !! path = Some n ∧ (1000 ≤ n)%N
          end.
Proof.
  unfold VoiceOutputProcessor.speak, uuid_uuid4, tts_save, os_path_exists,
    os_path_getsize.
  py_unfold. simpl.
  destruct (gTTS_init text) as [[]|e]; [|by eexists _, _].
  destruct (gTTS_save _ _ _) as [[[]|e] fs]; [|by eexists _, _].
  simpl. case_bool_decide as Hp; simpl.
  - destruct Hp as [n Hn]. rewrite Hn.
    destruct (n <? 1000)%N eqn:Hlt; [by eexists _, _|].
    eexists _, _. split; [done|]. exists n. simpl. split; [done|].
    by apply N.ltb_ge.
  - by eexists _, _.
Qed.

Example speak_nominal :
  (VoiceOutputProcessor.speak (E := nominal)
     {| VoiceOutputProcessor.output_dir := py "voice_outputs" |}
     (py "Section 420 deals with cheating.") nominal_boot).1
  = Returns (Some (py "/srv/voice_outputs/id-" ++ [0%N] ++ py ".mp3")).
Proof. vm_compute. reflexivity. Qed.

Example speak_outage :
  (VoiceOutputProcessor.speak (E := outage)
     {| VoiceOutputProcessor.output_dir := py "voice_outputs" |}
     (py "Section 420 deals with cheating.") outage_boot).1
  = Returns None.
Proof. reflexivity. Qed.

(** ** The orchestration boundary of the HTTP service *)

Section service_facts.
Context {E : Externals}.
Implicit Types (w : World) (m : pystr).

(** [transcribe] never raises and has no effect on the world. *)
Lemma transcribe_pure (self : VoiceInputProcessor.t) (audio_path : pystr) w :
  ∃ r, VoiceInputProcessor.transcribe self audio_path w = (Returns r, w) ∧
       match r with
       | None => True
       | Some s => truthy s = true ∧ blank s = false
       end.
Proof.
  unfold VoiceInputProcessor.transcribe.
  destruct (VoiceInputProcessor.model self) as [mo|]; [|by exists None].
  py_unfold. destruct (whisper_transcribe mo audio_path) as [result|e];
    [|by exists None].
  destruct (truthy (strip (default [] (result !! "text"%string)))) eqn:Ht;
    [|by exists None].
  eexists (Some _). split; [done|]. split; [done|].
  by apply strip_truthy_not_blank.
Qed.

(** What [answer_query] does to the world. *)
Lemma answer_query_world m w :
  answer_query m w
  = ((rag_pipeline m (pipeline w)).1,
     {| pipeline := (rag_pipeline m (pipeline w)).2; files := files w;
        uuid_draws := uuid_draws w; queries := queries w ++ [m] |}).
Proof. unfold answer_query. by destruct (rag_pipeline m (pipeline w)). Qed.

Lemma safe_chatbot_call_world m w :
  Main.safe_chatbot_call m w
  = (Returns match (rag_pipeline m (pipeline w)).1 with
             | Returns answer => answer
             | Raises _ => Main.apology
             end,
     {| pipeline := (rag_pipeline m (pipeline w)).2; files := files w;
        uuid_draws := uuid_draws w; queries := queries w ++ [m] |}).
Proof.
  unfold Main.safe_chatbot_call. py_unfold. rewrite answer_query_world.
  by destruct (rag_pipeline m (pipeline w)).1.
Qed.

Lemma session_step_world sid w :
  ∃ s n, session_step sid w
         = (Returns s, {| pipeline := pipeline w; files := files w;
                          uuid_draws := n; queries := queries w |}).
Proof.
  unfold session_step, Main.generate_session_id, uuid_uuid4. py_unfold.
  destruct w as [p f u q]; simpl.
  destruct sid as [s|]; [destruct (truthy s)|]; by eexists _, _.
Qed.

Lemma chat_world (request : ChatRequest.t) w :
  let m := ChatRequest.message request in
  ∃ s n,
    Main.chat request w
    = if negb (truthy m) || negb (truthy (strip m))
      then (Raises (HTTPException 400 (py "Message cannot be empty")),
            {| pipeline := pipeline w; files := files w;
               uuid_draws := n; queries := queries w |})
      else (Returns {| ChatResponse.reply :=
                         match (rag_pipeline (strip m) (pipeline w)).1 with
                         | Returns answer => answer
                         | Raises _ => Main.apology
                         end;
                       ChatResponse.session_id := s;
                       ChatResponse.confidence := None |},
            {| pipeline := (rag_pipeline (strip m) (pipeline w)).2;
               files := files w; uuid_draws := n;
               queries := queries w ++ [strip m] |}).
Proof.
  intros m. destruct (session_step_world (ChatRequest.session_id request) w)
    as (s & n & Hs).
  exists s, n. unfold Main.chat. fold (session_step (ChatRequest.session_id request)).
  unfold PyM.bind at 1. rewrite Hs. fold m.
  destruct (negb (truthy m) || negb (truthy (strip m))); [done|].
  py_unfold. by rewrite safe_chatbot_call_world.
Qed.

(** The text entry point never hands a blank query to the pipeline. *)
Lemma chat_never_queries_blank (request : ChatRequest.t) w :
  ∃ qs, queries (Main.chat request w).2 = queries w ++ qs ∧
        Forall (λ q, blank q = false) qs.
Proof.
  destruct (chat_world request w) as (s & n & ->). simpl.
  destruct (truthy (ChatRequest.message request)); simpl.
  - destruct (truthy (strip (ChatRequest.message request))) eqn:Ht; simpl.
    + eexists [_]. split; [done|]. constructor; [|done].
      by apply strip_truthy_not_blank.
    + exists []. by rewrite app_nil_r.
  - exists []. by rewrite app_nil_r.
Qed.

(** [speak] never raises and touches neither the pipeline nor the log of
    queries. *)
Lemma speak_world (self : VoiceOutputProcessor.t) (text : pystr) w :
  ∃ r w', VoiceOutputProcessor.speak self text w = (Returns r, w') ∧
          queries w' = queries w ∧ pipeline w' = pipeline w.
Proof.
  unfold VoiceOutputProcessor.speak, uuid_uuid4, tts_save, os_path_exists,
    os_path_getsize.
  py_unfold. simpl.
  destruct (gTTS_init text) as [[]|e]; [|by eexists _, _].
  destruct (gTTS_save _ _ _) as [[[]|e] fs]; [|by eexists _, _].
  simpl. case_bool_decide as Hp; simpl; [|by eexists _, _].
  destruct Hp as [n Hn]. rewrite Hn.
  destruct (n <? 1000)%N; by eexists _, _.
Qed.
End service_facts.

(** C2: for every user message, [safe_chatbot_call] returns a reply and
    never raises: the pipeline's own answer when [answer_query] returns, and
    the fixed apology, whatever the exception was, when it raises.  The text
    endpoint [chat] passes that reply on, so that a request ends either in
    the status 400 rejection of a blank message or in a response carrying
    the answer or the apology. *)
Theorem safe_chatbot_call_apologises `{Externals}
    (user_message : pystr) (session_id : option pystr) (w : World) :
  (∃ reply w',
     Main.safe_chatbot_call user_message w = (Returns reply, w') ∧
     match (answer_query user_message w).1 with
     | Returns answer => reply = answer
     | Raises _ => reply = Main.apology
     end) ∧
  reply_of (Main.chat {| ChatRequest.session_id := session_id;
                         ChatRequest.message := user_message |} w).1
  = if negb (truthy user_message) || negb (truthy (strip user_message))
    then Raises (HTTPException 400 (py "Message cannot be empty"))
    else Returns match (answer_query (strip user_message) w).1 with
                 | Returns answer => answer
                 | Raises _ => Main.apology
                 end.
Proof.
  split.
  - rewrite safe_chatbot_call_world, answer_query_world. simpl.
    eexists _, _. split; [done|].
    by destruct (rag_pipeline user_message (pipeline w)).1.
  - destruct (chat_world {| ChatRequest.session_id := session_id;
                            ChatRequest.message := user_message |} w)
      as (s & n & ->).
    rewrite answer_query_world. simpl.
    by destruct (negb (truthy user_message) || negb (truthy (strip user_message))).
Qed.

Example safe_chatbot_call_outage :
  (Main.safe_chatbot_call (E := outage) (py "What is IPC Section 420?") outage_boot).1
  = Returns Main.apology.
Proof. reflexivity. Qed.

Example chat_outage :
  reply_of (Main.chat (E := outage)
              {| ChatRequest.session_id := None;
                 ChatRequest.message := py " What is an FIR? " |} outage_boot).1
  = Returns Main.apology.
Proof. reflexivity. Qed.

(** C9: the reply of [chat] does not depend on the session identifier.  For
    every message and any two session identifiers (absent ones included),
    run from worlds that agree on the pipeline state, the two calls give the
    same reply (or the same rejection), leave the pipeline in the same state
    and hand the same queries to [answer_query]. *)
Theorem chat_reply_ignores_session `{Externals}
    (s1 s2 : option pystr) (message : pystr) (w1 w2 : World) :
  pipeline w1 = pipeline w2 →
  let r1 := Main.chat {| ChatRequest.session_id := s1;
                         ChatRequest.message := message |} w1 in
  let r2 := Main.chat {| ChatRequest.session_id := s2;
                         ChatRequest.message := message |} w2 in
  reply_of r1.1 = reply_of r2.1 ∧
  pipeline r1.2 = pipeline r2.2 ∧
  ∃ qs, queries r1.2 = queries w1 ++ qs ∧ queries r2.2 = queries w2 ++ qs.
Proof.
  intros Hp r1 r2. subst r1 r2.
  destruct (chat_world {| ChatRequest.session_id := s1;
                          ChatRequest.message := message |} w1) as (a1 & n1 & ->).
  destruct (chat_world {| ChatRequest.session_id := s2;
                          ChatRequest.message := message |} w2) as (a2 & n2 & ->).
  simpl. rewrite Hp.
  destruct (negb (truthy message) || negb (truthy (strip message))); simpl.
  - split; [done|]. split; [done|]. exists []. by rewrite !app_nil_r.
  - split; [done|]. split; [done|]. by eexists.
Qed.

Lemma chat_reply_ignores_session_witness :
  let w1 := nominal_boot in
  let w2 := @mkWorld nominal 0 ∅ 7 [py "Explain FIR"] in
  let r1 := Main.chat {| ChatRequest.session_id := None;
                         ChatRequest.message := py "What is bail?" |} w1 in
  let r2 := Main.chat {| ChatRequest.session_id := Some (py "abc-123");
                         ChatRequest.message := py "What is bail?" |} w2 in
  reply_of r1.1 = reply_of r2.1 ∧
  pipeline r1.2 = pipeline r2.2 ∧
  ∃ qs, queries r1.2 = queries w1 ++ qs ∧ queries r2.2 = queries w2 ++ qs.
Proof.
  apply (chat_reply_ignores_session (H := nominal)). reflexivity.
Defined.

(** ** Startup and health *)

(** C3, as stated, fails: with every startup component failing (Whisper
    cannot be loaded, the voice output directory cannot be created, the RAG
    pipeline raises), startup completes and the health check reports
    status "ok". *)
Lemma health_ok_after_failed_startup :
  is_raise (@whisper_load_model outage (py "base")) = true ∧
  is_raise (@os_makedirs outage
              (@os_path_join outage (@SCRIPTS_DIR outage) (py "voice_outputs"))) = true ∧
  is_raise (answer_query (E := outage) (py "test initialization") outage_boot).1 = true ∧
  ∃ g w, Main.lifespan (E := outage) outage_boot = (Returns g, w) ∧
         HealthResponse.status (Main.health_check g) = py "ok".
Proof.
  repeat split. by eexists _, _.
Qed.

(** C3, amended: whatever fails at startup, [lifespan] completes and the
    health check reports status "ok"; a failed Whisper load shows only as
    [voice_input_available = false], a failed voice output setup only as
    [voice_output_available = false], and the outcome of the RAG pipeline
    test does not show at all. *)
Theorem health_status_always_ok `{Externals} (w : World) :
  ∃ g w',
    Main.lifespan w = (Returns g, w') ∧
    HealthResponse.status (Main.health_check g) = py "ok" ∧
    HealthResponse.voice_input_available (Main.health_check g)
      = negb (is_raise (whisper_load_model (py "base"))) ∧
    HealthResponse.voice_output_available (Main.health_check g)
      = negb (is_raise (os_makedirs (os_path_join SCRIPTS_DIR (py "voice_outputs")))).
Proof.
  unfold Main.lifespan, VoiceInputProcessor.init, VoiceOutputProcessor.init.
  py_unfold.
  destruct (whisper_load_model (py "base")) as [mo|e1];
    destruct (os_makedirs _) as [[]|e2];
    rewrite answer_query_world;
    destruct (rag_pipeline _ _).1 as [a|e3]; simpl;
    by eexists _, _.
Qed.

(** ** The voice orchestrator *)

(** C4, as stated, fails: with an audio input whose transcription fails and
    a text input passed alongside, [process] falls back to the text and
    invokes [answer_query] with it. *)
Lemma process_falls_back_to_text :
  let r := VoiceChatbot.process (E := nominal) deaf_bot
             (Some (py "Explain FIR")) (Some (py "clip.wav")) nominal_boot in
  (VoiceInputProcessor.transcribe (E := nominal)
     (VoiceChatbot.voice_input deaf_bot) (py "clip.wav") nominal_boot).1
  = Returns None ∧
  queries r.2 = [py "Explain FIR"] ∧
  r.1 ≠ Returns VoiceChatbot.unable.
Proof.
  repeat split. vm_compute. discriminate.
Qed.

(** C4, amended: for every audio input whose transcription fails or is
    empty, [process] returns the fixed "Unable to process input." response
    without invoking [answer_query] when no non-empty text input comes with
    the audio; when one does, [process] falls back to it and invokes
    [answer_query] with that text. *)
Theorem process_failed_transcription `{Externals}
    (self : VoiceChatbot.t) (text_input : option pystr) (audio_path : pystr)
    (w : World) :
  truthy audio_path = true →
  (VoiceInputProcessor.transcribe (VoiceChatbot.voice_input self) audio_path w).1
  = Returns None →
  let r := VoiceChatbot.process self text_input (Some audio_path) w in
  match text_input with
  | Some query =>
      if truthy query then queries r.2 = queries w ++ [query]
      else r = (Returns VoiceChatbot.unable, w)
  | None => r = (Returns VoiceChatbot.unable, w)
  end.
Proof.
  intros Ha Ht r. subst r. unfold VoiceChatbot.process. rewrite Ha.
  destruct (transcribe_pure (VoiceChatbot.voice_input self) audio_path w)
    as (t & Heq & _).
  rewrite Heq in Ht. simpl in Ht. injection Ht as ->.
  destruct text_input as [query|]; [destruct (truthy query) eqn:Hq|];
    py_unfold; rewrite Heq; simpl; rewrite ?Hq; try done.
  rewrite answer_query_world.
  destruct (rag_pipeline query (pipeline w)).1 as [answer|e]; [|done].
  rewrite Ha.
  match goal with
  | |- context [VoiceOutputProcessor.speak ?s ?t ?w0] =>
      destruct (speak_world s t w0) as (a & w' & Hs & Hq' & _)
  end.
  rewrite Hs. by simpl.
Qed.

Lemma process_failed_transcription_witness :
  let silent_bot :=
    {| VoiceChatbot.voice_input := {| VoiceInputProcessor.model := Some silent_model |};
       VoiceChatbot.voice_output := VoiceChatbot.voice_output deaf_bot |} in
  VoiceChatbot.process (E := nominal) silent_bot None (Some (py "clip.wav")) nominal_boot
  = (Returns VoiceChatbot.unable, nominal_boot).
Proof.
  intros silent_bot.
  apply (process_failed_transcription (H := nominal) silent_bot None
           (py "clip.wav") nominal_boot); reflexivity.
Defined.

(** With audio as the only input, whatever reaches [answer_query] is a
    stripped, non-empty transcription. *)
Lemma process_audio_only_never_queries_blank `{Externals}
    (self : VoiceChatbot.t) (audio_path : option pystr) (w : World) :
  ∃ qs, queries (VoiceChatbot.process self None audio_path w).2 = queries w ++ qs ∧
        Forall (λ q, blank q = false) qs.
Proof.
  unfold VoiceChatbot.process.
  destruct audio_path as [path|]; [destruct (truthy path) eqn:Hp|];
    try (exists []; by rewrite app_nil_r).
  destruct (transcribe_pure (VoiceChatbot.voice_input self) path w)
    as (t & Heq & Ht).
  py_unfold. rewrite Heq. simpl.
  destruct t as [s|]; simpl; [|exists []; by rewrite app_nil_r].
  destruct Ht as [Ht Hb]. rewrite Ht. cbv beta iota. rewrite Ht.
  rewrite answer_query_world.
  destruct (rag_pipeline s (pipeline w)).1 as [answer|e]; simpl.
  - rewrite Hp.
    match goal with
    | |- context [VoiceOutputProcessor.speak ?v ?t ?w0] =>
        destruct (speak_world v t w0) as (a & w' & Hs & Hq & _)
    end.
    rewrite Hs. simpl. rewrite Hq. simpl. exists [s]. by repeat constructor.
  - exists [s]. by repeat constructor.
Qed.

(** C5 at its failing input: a whitespace-only text input is truthy, so the
    voice orchestrator does not reject it and [answer_query] is invoked with
    the whitespace-only query, which the text entry point [chat] rejects
    with status 400. *)
Theorem process_blank_text_reaches_pipeline :
  let spaces := py "   " in
  blank spaces = true ∧
  queries (VoiceChatbot.process (E := nominal) deaf_bot (Some spaces) None
             nominal_boot).2 = [spaces] ∧
  (Main.chat (E := nominal)
     {| ChatRequest.session_id := None; ChatRequest.message := spaces |}
     nominal_boot).1
  = Raises (HTTPException 400 (py "Message cannot be empty")).
Proof. repeat split. Qed.

(** ** The semantic retriever *)

Section retriever_facts.
Context {E : Externals} {V : Embeddings} {B : StoreBackend}.
Implicit Types (c : Chroma.Client) (coll : gmap pystr Chroma.Entry).

Global Instance closer_total : Total Chroma.closer.
Proof. intros a b. unfold Chroma.closer. destruct (total score_le a.2 b.2); auto. Qed.

Global Instance closer_trans : Transitive Chroma.closer.
Proof. intros a b d Hab Hbd. unfold Chroma.closer in *. by etrans. Qed.







(** Opening the store leaves the stored collection as it was. *)
Lemma init_collection dir emb name c :
  ∃ c1, Chroma.init dir emb name c
        = (Returns {| Chroma.persist_directory := dir;
                      Chroma.embedding_function := emb;
                      Chroma.collection_name := name |}, c1) ∧
        Chroma.disk c1 !! (dir, name) = Some (default ∅ (Chroma.disk c !! (dir, name))) ∧
        Chroma.drawn c1 = Chroma.drawn c ∧
        Chroma.upserted c1 = Chroma.upserted c.
Proof.
  eexists. split; [done|]. simpl. split; [|done].
  unfold Chroma.key, Chroma.collection. simpl. by rewrite lookup_insert_eq.
Qed.


End retriever_facts.

(** Without the embedding model the retriever cannot be built. *)
Example get_retriever_offline :
  Retriever.get_retriever (V := toy_embeddings) (B := offline_backend) empty_client
  = (Raises (Error "OSError" (py "model not found")), empty_client).
Proof. reflexivity. Qed.



(** ** The corpus indexer *)

Section indexer_facts.
Context {E : Externals} {V : Embeddings}.
Variable load_documents : string → outcome (list Document).
Implicit Types (c : Chroma.Client) (coll : gmap pystr Chroma.Entry).

Lemma load_all_world paths all_docs c :
  BuildVectordb.load_all load_documents all_docs paths c
  = (collect load_documents all_docs paths, c).
Proof.
  revert all_docs. induction paths as [|path rest IH]; intros all_docs;
    simpl; [done|].
  py_unfold. destruct (load_documents path) as [docs|e]; [|done].
  apply IH.
Qed.

Lemma upsert_lookup_other coll ids entries i :
  i ∉ ids → Chroma.upsert coll ids entries !! i = coll !! i.
Proof.
  unfold Chroma.upsert. revert coll entries.
  induction ids as [|j ids IH]; intros coll entries Hi; [done|].
  destruct entries as [|e entries]; [done|]. simpl.
  apply not_elem_of_cons in Hi as [Hij Hi].
  rewrite IH by done. by apply lookup_insert_ne.
Qed.

Lemma dom_upsert coll ids entries :
  length ids = length entries →
  dom (Chroma.upsert coll ids entries) = dom coll ∪ list_to_set ids.
Proof.
  unfold Chroma.upsert. revert coll entries.
  induction ids as [|j ids IH]; intros coll [|e entries] Hlen;
    try discriminate; simpl.
  - by rewrite (right_id_L ∅ (∪)).
  - rewrite IH by (simpl in Hlen; lia).
    rewrite dom_insert_L, ?list_to_set_cons.
    by rewrite (assoc_L (∪)), (comm_L (∪) (dom coll)).
Qed.

Lemma build_vectordb_world c :
  BuildVectordb.build_vectordb load_documents c
  = match collect load_documents [] BuildVectordb.DATA_FILES with
    | Returns docs =>
        (Returns {| BuildVectordb.documents := length docs;
                    BuildVectordb.db_count :=
                      size (Chroma.collection legal_knowledge (built docs c)) |},
         built docs c)
    | Raises e => (Raises e, c)
    end.
Proof.
  unfold BuildVectordb.build_vectordb. unfold PyM.bind at 1.
  rewrite load_all_world.
  destruct (collect load_documents [] BuildVectordb.DATA_FILES) as [docs|e];
    [|done].
  unfold Chroma.from_documents, Chroma.init, Chroma.fresh_ids,
    Chroma.add_documents, Chroma.persist, Chroma.count.
  py_unfold. simpl. fold legal_knowledge. fold draw.
  assert (Chroma.collection legal_knowledge
            {| Chroma.disk := <[Chroma.key legal_knowledge :=
                                  Chroma.collection legal_knowledge c]> (Chroma.disk c);
               Chroma.drawn := Chroma.drawn c + length docs;
               Chroma.upserted := Chroma.upserted c |}
          = Chroma.collection legal_knowledge c) as ->.
  { unfold Chroma.collection at 1. simpl. by rewrite lookup_insert_eq. }
  rewrite insert_insert_eq.
  rewrite take_ge by (by rewrite length_fmap, length_seq).
  done.
Qed.

Lemma built_collection docs c :
  Chroma.collection legal_knowledge (built docs c)
  = Chroma.upsert (Chroma.collection legal_knowledge c)
      (draw <$> seq (Chroma.drawn c) (length docs))
      (Chroma.entry_of legal_knowledge <$> docs).
Proof. unfold Chroma.collection at 1. simpl. by rewrite lookup_insert_eq. Qed.

Lemma built_run_ids docs c :
  run_ids c (built docs c) = draw <$> seq (Chroma.drawn c) (length docs).
Proof. unfold run_ids. simpl. by rewrite drop_app_length. Qed.

Lemma built_dom docs c :
  dom (Chroma.collection legal_knowledge (built docs c))
  = dom (Chroma.collection legal_knowledge c)
    ∪ list_to_set (run_ids c (built docs c)).
Proof.
  rewrite built_collection, built_run_ids.
  apply dom_upsert. by rewrite !length_fmap, length_seq.
Qed.

Lemma built_size_mono docs c :
  size (Chroma.collection legal_knowledge c)
  ≤ size (Chroma.collection legal_knowledge (built docs c)).
Proof.
  rewrite <- !size_dom. apply subseteq_size. rewrite built_dom.
  apply union_subseteq_l.
Qed.
End indexer_facts.

(** C6, as stated, fails: two runs over the same three source documents,
    the second on the store left by the first, write different chunk
    identifiers, and the collection count goes from 3 to 6. *)
Lemma rebuild_draws_new_ids_and_grows :
  let build := BuildVectordb.build_vectordb (E := nominal) (V := toy_embeddings)
                 load_sample in
  let run1 := build empty_client in
  let run2 := build run1.2 in
  run1.1 = Returns {| BuildVectordb.documents := 3; BuildVectordb.db_count := 3 |} ∧
  run2.1 = Returns {| BuildVectordb.documents := 3; BuildVectordb.db_count := 6 |} ∧
  run_ids empty_client run1.2 = id_of_nat <$> [0; 1; 2] ∧
  run_ids run1.2 run2.2 = id_of_nat <$> [3; 4; 5].
Proof. vm_compute. done. Qed.

(** C6, amended: re-running the indexer on unchanged source documents
    succeeds whenever the first run did and submits the same number of
    chunks, but the chunk identifiers are drawn afresh: the first run writes
    the next n draws of the UUID generator and the second run the n draws
    after those; the chunks are added to the stored collection, whose count
    does not decrease. *)
Theorem rebuild_same_count_new_ids `{Externals} `{Embeddings}
    (load_documents : string → outcome (list Document))
    (c0 c1 : Chroma.Client) (rep1 : BuildVectordb.report) :
  BuildVectordb.build_vectordb load_documents c0 = (Returns rep1, c1) →
  ∃ rep2 c2,
    BuildVectordb.build_vectordb load_documents c1 = (Returns rep2, c2) ∧
    BuildVectordb.documents rep2 = BuildVectordb.documents rep1 ∧
    run_ids c0 c1
      = draw <$> seq (Chroma.drawn c0) (BuildVectordb.documents rep1) ∧
    run_ids c1 c2
      = draw <$> seq (Chroma.drawn c0 + BuildVectordb.documents rep1)
                     (BuildVectordb.documents rep1) ∧
    BuildVectordb.db_count rep1 ≤ BuildVectordb.db_count rep2.
Proof.
  rewrite !build_vectordb_world.
  destruct (collect load_documents [] BuildVectordb.DATA_FILES) as [docs|e];
    [|discriminate].
  intros [= <- <-]. eexists _, _. split; [done|]. simpl.
  rewrite !built_run_ids. simpl.
  split; [done|]. split; [done|]. split; [done|].
  apply built_size_mono.
Qed.

Lemma rebuild_same_count_new_ids_witness :
  let build := BuildVectordb.build_vectordb (E := nominal) (V := toy_embeddings)
                 load_sample in
  let c1 := (build empty_client).2 in
  ∃ rep2 c2,
    build c1 = (Returns rep2, c2) ∧
    BuildVectordb.documents rep2 = 3 ∧
    run_ids empty_client c1 = draw (E := nominal) <$> seq 0 3 ∧
    run_ids c1 c2 = draw (E := nominal) <$> seq (0 + 3) 3 ∧
    3 ≤ BuildVectordb.db_count rep2.
Proof.
  intros build c1.
  apply (rebuild_same_count_new_ids (H := nominal) (H0 := toy_embeddings)
           load_sample empty_client c1
           {| BuildVectordb.documents := 3; BuildVectordb.db_count := 3 |}).
  vm_compute. reflexivity.
Defined.

(** C7, as stated, fails: a rebuild on a store that already holds a chunk
    of an earlier build leaves that chunk in the collection next to the
    three new ones. *)
Lemma rebuild_keeps_previous_content :
  let run := BuildVectordb.build_vectordb (E := nominal) (V := toy_embeddings)
               load_sample stale_client in
  run.1 = Returns {| BuildVectordb.documents := 3; BuildVectordb.db_count := 4 |} ∧
  run_ids stale_client run.2 = id_of_nat <$> [0; 1; 2] ∧
  Chroma.collection legal_knowledge stale_client !! py "old-1" = Some stale_entry ∧
  Chroma.collection legal_knowledge run.2 !! py "old-1" = Some stale_entry.
Proof. vm_compute. done. Qed.

(** C7, amended: a rebuild adds the newly indexed chunks to the existing
    collection of the same name: afterwards the collection holds the
    identifiers it held before together with the newly written ones, one per
    submitted document, and every entry whose identifier was not written by
    the rebuild is still there unchanged. *)
Theorem rebuild_adds_to_collection `{Externals} `{Embeddings}
    (load_documents : string → outcome (list Document))
    (c c1 : Chroma.Client) (rep : BuildVectordb.report) :
  BuildVectordb.build_vectordb load_documents c = (Returns rep, c1) →
  dom (Chroma.collection legal_knowledge c1)
    = dom (Chroma.collection legal_knowledge c) ∪ list_to_set (run_ids c c1) ∧
  length (run_ids c c1) = BuildVectordb.documents rep ∧
  ∀ i, i ∉ run_ids c c1 →
       Chroma.collection legal_knowledge c1 !! i
       = Chroma.collection legal_knowledge c !! i.
Proof.
  rewrite build_vectordb_world.
  destruct (collect load_documents [] BuildVectordb.DATA_FILES) as [docs|e];
    [|discriminate].
  intros [= <- <-]. split; [apply built_dom|].
  rewrite built_run_ids, built_collection. simpl.
  split; [by rewrite length_fmap, length_seq|].
  intros i Hi. by apply upsert_lookup_other.
Qed.

Lemma rebuild_adds_to_collection_witness :
  let c1 := (BuildVectordb.build_vectordb (E := nominal) (V := toy_embeddings)
               load_sample stale_client).2 in
  dom (Chroma.collection legal_knowledge c1)
    = dom (Chroma.collection legal_knowledge stale_client)
      ∪ list_to_set (run_ids stale_client c1) ∧
  length (run_ids stale_client c1) = 3 ∧
  ∀ i, i ∉ run_ids stale_client c1 →
       Chroma.collection legal_knowledge c1 !! i
       = Chroma.collection legal_knowledge stale_client !! i.
Proof.
  intros c1.
  apply (rebuild_adds_to_collection (H := nominal) (H0 := toy_embeddings)
           load_sample stale_client c1
           {| BuildVectordb.documents := 3; BuildVectordb.db_count := 4 |}).
  vm_compute. reflexivity.
Defined.

(** ** The voice endpoint *)

Section voice_facts.
Context {E : Externals} {U : Uploads}.
Implicit Types (w : World) (g : Main.globals).

Lemma chat_voice_parts g (audio : UploadFile.t) (sid : option pystr)
    (return_audio : bool) :
  chat_voice g audio sid return_audio
  = (session_id <~ session_step sid ;;
     match Main.voice_input_processor g with
     | None => PyM.raise voice_unavailable
     | Some vip =>
         match VoiceInputProcessor.model vip with
         | None => PyM.raise voice_unavailable
         | Some _ =>
             PyM.call (path_mkdir TEMP_AUDIO_DIR) ;;;
             u <~ uuid_uuid4 ;;
             let temp_audio_path :=
               os_path_join TEMP_AUDIO_DIR
                 (uuid_hex u ++ py "_" ++ UploadFile.filename audio) in
             try_finally
               (save_and_answer g vip audio session_id return_audio temp_audio_path)
               (cleanup_temp temp_audio_path)
         end
     end).
Proof. reflexivity. Qed.

(** The session step, with the identifier it yields. *)
Lemma session_step_id (sid : option pystr) w :
  session_step sid w
  = if truthy_opt sid
    then (Returns (default [] sid), w)
    else (Returns (uuid_str (uuid4 (uuid_draws w))),
          {| pipeline := pipeline w; files := files w;
             uuid_draws := S (uuid_draws w); queries := queries w |}).
Proof.
  unfold session_step, Main.generate_session_id, uuid_uuid4. py_unfold.
  destruct sid as [s|]; simpl; [|done]. by destruct (truthy s).
Qed.

(** [speak] draws exactly one UUID. *)
Lemma speak_effects (self : VoiceOutputProcessor.t) (text : pystr) w :
  ∃ r w', VoiceOutputProcessor.speak self text w = (Returns r, w') ∧
          queries w' = queries w ∧ pipeline w' = pipeline w ∧
          uuid_draws w' = S (uuid_draws w).
Proof.
  unfold VoiceOutputProcessor.speak, uuid_uuid4, tts_save, os_path_exists,
    os_path_getsize.
  py_unfold. simpl.
  destruct (gTTS_init text) as [[]|e]; [|by eexists _, _].
  destruct (gTTS_save _ _ _) as [[[]|e] fs]; [|by eexists _, _].
  simpl. case_bool_decide as Hp; simpl; [|by eexists _, _].
  destruct Hp as [n Hn]. rewrite Hn.
  destruct (n <? 1000)%N; by eexists _, _.
Qed.

Lemma cleanup_temp_world (path : pystr) w :
  ∃ w', cleanup_temp path w = (Returns tt, w') ∧
        pipeline w' = pipeline w ∧ queries w' = queries w ∧
        uuid_draws w' = uuid_draws w ∧
        (files w' !! path = None ∨
         is_raise (path_unlink path) = true ∧ files w' = files w).
Proof.
  unfold cleanup_temp, os_path_exists, fs_unlink. py_unfold.
  case_bool_decide as Hp.
  - destruct Hp as [n Hn]. rewrite Hn.
    destruct (path_unlink path) as [[]|e] eqn:Hu.
    + eexists. split; [done|]. simpl. repeat split; try done.
      left. apply lookup_delete_eq.
    + eexists. split; [done|]. repeat split; try done. by right.
  - exists w. repeat split; try done. left.
    destruct (files w !! path) eqn:Hf; [|done]. destruct Hp. by eexists.
Qed.

Lemma encode_reply_audio_world g (return_audio : bool) (reply : pystr) w :
  ∃ a w', encode_reply_audio g return_audio reply w = (Returns a, w') ∧
          pipeline w' = pipeline w ∧ queries w' = queries w ∧
          uuid_draws w' ≤ S (uuid_draws w) ∧
          (return_audio = false ∨ Main.voice_output_processor g = None →
           a = None ∧ w' = w).
Proof.
  unfold encode_reply_audio.
  destruct (Main.voice_output_processor g) as [vop|];
    [|exists None, w; repeat split; auto].
  destruct return_audio; [|exists None, w; repeat split; auto].
  destruct (speak_effects vop reply w) as (r & w1 & Hs & Hq & Hp & Hu).
  py_unfold. rewrite Hs.
  assert (uuid_draws w1 ≤ S (uuid_draws w)) as Hle by lia.
  assert (∀ a : option pystr,
    ∃ a0 w', (Returns a, w1) = (Returns a0, w') ∧
      pipeline w' = pipeline w ∧ queries w' = queries w ∧
      uuid_draws w' ≤ S (uuid_draws w) ∧
      (true = false ∨ Some vop = None → a0 = None ∧ w' = w)) as Hdone.
  { intros a. exists a, w1. split; [done|]. split; [done|]. split; [done|].
    split; [done|]. by intros [|]. }
  destruct r as [path|]; [|apply Hdone].
  destruct (truthy path); [|apply Hdone].
  unfold os_path_exists. case_bool_decide; [|apply Hdone].
  destruct (read_bytes path); apply Hdone.
Qed.

(** The [try] block: it raises only before the pipeline is asked, and
    returns only after asking it once with the transcription. *)
Lemma save_and_answer_world g (vip : VoiceInputProcessor.t) (audio : UploadFile.t)
    (session_id : pystr) (return_audio : bool) (path : pystr) w :
  ∃ o w', save_and_answer g vip audio session_id return_audio path w = (o, w') ∧
    uuid_draws w' ≤ S (uuid_draws w) ∧
    match o with
    | Raises e =>
        pipeline w' = pipeline w ∧ queries w' = queries w ∧
        uuid_draws w' = uuid_draws w ∧
        (e = not_transcribed ∨ open_wb path = Raises e ∨
         UploadFile.read audio = Raises e ∨
         ∃ content, file_write path content = Raises e)
    | Returns resp =>
        ∃ t, VoiceChatResponse.transcribed_text resp = Some t ∧
             truthy t = true ∧ blank t = false ∧
             (VoiceInputProcessor.transcribe vip path w).1 = Returns (Some t) ∧
             VoiceChatResponse.reply resp = reply_for t (pipeline w) ∧
             VoiceChatResponse.session_id resp = session_id ∧
             VoiceChatResponse.audio_path resp = None ∧
             (return_audio = false ∨ Main.voice_output_processor g = None →
              VoiceChatResponse.audio_base64 resp = None ∧
              uuid_draws w' = uuid_draws w) ∧
             pipeline w' = (rag_pipeline t (pipeline w)).2 ∧
             queries w' = queries w ++ [t]
    end.
Proof.
  unfold save_and_answer, fs_open_wb, fs_write. py_unfold.
  destruct (open_wb path) as [[]|e] eqn:Ho;
    [|eexists _, _; split; [done|]; split; [lia|]; repeat split; auto].
  destruct (UploadFile.read audio) as [content|e] eqn:Hr;
    [|eexists _, _; split; [done|]; split; [simpl; lia|]; repeat split; auto].
  destruct (file_write path content) as [[]|e] eqn:Hw;
    [|eexists _, _; split; [done|]; split; [simpl; lia|]; repeat split; eauto].
  set (w2 := with_files (with_files w _) _).
  destruct (transcribe_pure vip path w2) as (tr & Ht & Htr).
  destruct (transcribe_pure vip path w) as (tr' & Ht' & _).
  assert (tr' = tr) as ->.
  { unfold VoiceInputProcessor.transcribe in Ht, Ht'.
    destruct (VoiceInputProcessor.model vip) as [mo|]; py_unfold;
      [|congruence].
    destruct (whisper_transcribe mo path); congruence. }
  rewrite Ht.
  destruct tr as [t|]; simpl;
    [|eexists _, _; split; [done|]; split; [simpl; lia|]; repeat split; auto].
  destruct Htr as [Htt Hb]. rewrite Htt. simpl.
  rewrite safe_chatbot_call_world.
  destruct (encode_reply_audio_world g return_audio
              match (rag_pipeline t (pipeline w2)).1 with
              | Returns answer => answer
              | Raises _ => Main.apology
              end
              {| pipeline := (rag_pipeline t (pipeline w2)).2; files := files w2;
                 uuid_draws := uuid_draws w2; queries := queries w2 ++ [t] |})
    as (a & w3 & Ha & Hp3 & Hq3 & Hu3 & Hoff).
  rewrite Ha. eexists _, _. split; [done|]. split; [done|].
  exists t. simpl. rewrite Ht'. repeat split; try done.
  - by destruct (Hoff H).
  - destruct (Hoff H) as [_ ->]. done.
Qed.
(** The whole endpoint, stage by stage. *)
Lemma chat_voice_world g (audio : UploadFile.t) (sid : option pystr)
    (return_audio : bool) w :
  ∃ s w0,
    s = (if truthy_opt sid then default [] sid
         else uuid_str (uuid4 (uuid_draws w))) ∧
    pipeline w0 = pipeline w ∧ files w0 = files w ∧ queries w0 = queries w ∧
    uuid_draws w0 = uuid_draws w + (if truthy_opt sid then 0 else 1) ∧
    if HealthResponse.voice_input_available (Main.health_check g) then
      match path_mkdir TEMP_AUDIO_DIR with
      | Raises e => chat_voice g audio sid return_audio w = (Raises e, w0)
      | Returns _ =>
          let path := temp_path_of audio (uuid_draws w0) in
          ∃ vip o w2 w3,
            save_and_answer g vip audio s return_audio path
              {| pipeline := pipeline w0; files := files w0;
                 uuid_draws := S (uuid_draws w0); queries := queries w0 |}
            = (o, w2) ∧
            cleanup_temp path w2 = (Returns tt, w3) ∧
            chat_voice g audio sid return_audio w = (o, w3)
      end
    else chat_voice g audio sid return_audio w = (Raises voice_unavailable, w0).
Proof.
  rewrite chat_voice_parts. unfold uuid_uuid4, try_finally. py_unfold.
  rewrite session_step_id.
  set (s := if truthy_opt sid then default [] sid
            else uuid_str (uuid4 (uuid_draws w))).
  set (w0 := if truthy_opt sid then w
             else {| pipeline := pipeline w; files := files w;
                     uuid_draws := S (uuid_draws w); queries := queries w |}).
  exists s, w0.
  assert ((if truthy_opt sid
           then (Returns (default [] sid), w)
           else (Returns (uuid_str (uuid4 (uuid_draws w))),
                 {| pipeline := pipeline w; files := files w;
                    uuid_draws := S (uuid_draws w); queries := queries w |}))
          = (Returns s, w0)) as -> by (subst s w0; by destruct (truthy_opt sid)).
  split; [done|].
  split; [subst w0; by destruct (truthy_opt sid)|].
  split; [subst w0; by destruct (truthy_opt sid)|].
  split; [subst w0; by destruct (truthy_opt sid)|].
  split; [subst w0; destruct (truthy_opt sid); simpl; lia|].
  clearbody s w0. unfold Main.health_check.
  cbn [HealthResponse.voice_input_available].
  destruct (Main.voice_input_processor g) as [vip|]; [|done].
  destruct (VoiceInputProcessor.model vip) as [mo|];
    [rewrite bool_decide_eq_true_2 by (by eexists)
    |by rewrite bool_decide_eq_false_2 by (by intros [? ?])].
  destruct (path_mkdir TEMP_AUDIO_DIR) as [[]|e]; [|done].
  fold (temp_path_of audio (uuid_draws w0)). cbv zeta.
  destruct (save_and_answer g vip audio s return_audio
              (temp_path_of audio (uuid_draws w0))
              {| pipeline := pipeline w0; files := files w0;
                 uuid_draws := S (uuid_draws w0); queries := queries w0 |})
    as [o w2] eqn:Hb.
  destruct (cleanup_temp_world (temp_path_of audio (uuid_draws w0)) w2)
    as (w3 & Hc & _).
  exists vip, o, w2, w3. by rewrite Hc.
Qed.
End voice_facts.

(** X1: when the health check reports voice input as unavailable, the voice
    endpoint refuses the request with status 503 before touching anything:
    no file is written and the pipeline is not asked. *)
Theorem chat_voice_unavailable `{Externals} `{Uploads}
    (g : Main.globals) (audio : UploadFile.t) (sid : option pystr)
    (return_audio : bool) (w : World) :
  HealthResponse.voice_input_available (Main.health_check g) = false →
  ∃ w', chat_voice g audio sid return_audio w = (Raises voice_unavailable, w') ∧
        pipeline w' = pipeline w ∧ files w' = files w ∧ queries w' = queries w.
Proof.
  intros Hoff.
  destruct (chat_voice_world g audio sid return_audio w)
    as (s & w0 & _ & Hp & Hf & Hq & _ & Hv).
  rewrite Hoff in Hv. by exists w0.
Qed.

Lemma chat_voice_unavailable_witness :
  ∃ w', chat_voice (E := nominal) (U := local_uploads) (serving None) clip None true
          nominal_boot = (Raises voice_unavailable, w') ∧
        pipeline w' = pipeline nominal_boot ∧ files w' = files nominal_boot ∧
        queries w' = queries nominal_boot.
Proof.
  apply (chat_voice_unavailable (H := nominal) (H0 := local_uploads)).
  reflexivity.
Defined.

(** X2: once the temporary directory exists, the uploaded audio never
    outlives the request: whether the endpoint returns or raises, the
    temporary file is gone afterwards unless deleting it failed. *)
Theorem chat_voice_removes_temp_file `{Externals} `{Uploads}
    (g : Main.globals) (audio : UploadFile.t) (sid : option pystr)
    (return_audio : bool) (w : World) :
  HealthResponse.voice_input_available (Main.health_check g) = true →
  path_mkdir TEMP_AUDIO_DIR = Returns tt →
  let temp := temp_path_of audio
                (uuid_draws w + (if truthy_opt sid then 0 else 1)) in
  files (chat_voice g audio sid return_audio w).2 !! temp = None ∨
  is_raise (path_unlink temp) = true.
Proof.
  intros Hon Hmk temp.
  destruct (chat_voice_world g audio sid return_audio w)
    as (s & w0 & _ & _ & _ & _ & Hu & Hv).
  rewrite Hon, Hmk, Hu in Hv. fold temp in Hv.
  destruct Hv as (vip & o & w2 & w3 & _ & Hc & ->). simpl.
  destruct (cleanup_temp_world temp w2) as (w3' & Hc' & _ & _ & _ & Hgone).
  rewrite Hc in Hc'. injection Hc' as <-.
  destruct Hgone as [Hgone|[Hfail _]]; auto.
Qed.

Lemma chat_voice_removes_temp_file_witness :
  let temp := temp_path_of (E := nominal) (U := local_uploads) clip (0 + 1) in
  files (chat_voice (E := nominal) (U := local_uploads) (serving (Some fir_model))
           clip None true nominal_boot).2 !! temp = None ∨
  is_raise (@path_unlink local_uploads temp) = true.
Proof.
  apply (chat_voice_removes_temp_file (H := nominal) (H0 := local_uploads)
           (serving (Some fir_model)) clip None true nominal_boot);
    reflexivity.
Defined.

(** X3: the voice endpoint asks the pipeline exactly once when it returns
    and not at all when it raises.  A returned response carries a
    non-blank transcription, the query is that transcription, and the reply
    is the pipeline's answer to it or the fixed apology. *)
Theorem chat_voice_asks_once `{Externals} `{Uploads}
    (g : Main.globals) (audio : UploadFile.t) (sid : option pystr)
    (return_audio : bool) (w : World) :
  let r := chat_voice g audio sid return_audio w in
  match r.1 with
  | Raises _ => queries r.2 = queries w ∧ pipeline r.2 = pipeline w
  | Returns resp =>
      ∃ t, VoiceChatResponse.transcribed_text resp = Some t ∧
           blank t = false ∧
           queries r.2 = queries w ++ [t] ∧
           VoiceChatResponse.reply resp = reply_for t (pipeline w) ∧
           pipeline r.2 = (rag_pipeline t (pipeline w)).2
  end.
Proof.
  intros r. subst r.
  destruct (chat_voice_world g audio sid return_audio w)
    as (s & w0 & _ & Hp & _ & Hq & _ & Hv).
  destruct (HealthResponse.voice_input_available (Main.health_check g));
    [|by rewrite Hv].
  destruct (path_mkdir TEMP_AUDIO_DIR) as [[]|e]; [|by rewrite Hv].
  destruct Hv as (vip & o & w2 & w3 & Hb & Hc & ->). simpl.
  destruct (cleanup_temp_world (temp_path_of audio (uuid_draws w0)) w2)
    as (w3' & Hc' & Hp3 & Hq3 & _).
  rewrite Hc in Hc'. injection Hc' as <-.
  destruct (save_and_answer_world g vip audio s return_audio
              (temp_path_of audio (uuid_draws w0))
              {| pipeline := pipeline w0; files := files w0;
                 uuid_draws := S (uuid_draws w0); queries := queries w0 |})
    as (o' & w2' & Hb' & _ & Hcase).
  rewrite Hb in Hb'. injection Hb' as <- <-.
  rewrite Hp3, Hq3. simpl in Hcase. rewrite Hp, Hq in Hcase.
  destruct o as [resp|e].
  - destruct Hcase as (t & Ht & _ & Hbl & _ & Hr & _ & _ & _ & Hpl & Hql).
    by exists t.
  - by destruct Hcase as (? & ? & _).
Qed.

(** X4: the voice endpoint fails only in five ways: voice input is
    unavailable (503), nothing was transcribed (400), or creating the
    temporary directory, reading the upload or writing it to disk raised.
    A failing pipeline or a failing text to speech step never fails the
    request. *)
Theorem chat_voice_errors `{Externals} `{Uploads}
    (g : Main.globals) (audio : UploadFile.t) (sid : option pystr)
    (return_audio : bool) (w : World) (e : exn) :
  (chat_voice g audio sid return_audio w).1 = Raises e →
  e = voice_unavailable ∨ e = not_transcribed ∨
  path_mkdir TEMP_AUDIO_DIR = Raises e ∨
  UploadFile.read audio = Raises e ∨
  ∃ path, open_wb path = Raises e ∨
          ∃ content, file_write path content = Raises e.
Proof.
  destruct (chat_voice_world g audio sid return_audio w)
    as (s & w0 & _ & _ & _ & _ & _ & Hv).
  destruct (HealthResponse.voice_input_available (Main.health_check g));
    [|rewrite Hv; intros [= <-]; auto].
  destruct (path_mkdir TEMP_AUDIO_DIR) as [[]|e'];
    [|rewrite Hv; intros [= <-]; auto].
  destruct Hv as (vip & o & w2 & w3 & Hb & _ & ->). simpl. intros ->.
  destruct (save_and_answer_world g vip audio s return_audio
              (temp_path_of audio (uuid_draws w0))
              {| pipeline := pipeline w0; files := files w0;
                 uuid_draws := S (uuid_draws w0); queries := queries w0 |})
    as (o' & w2' & Hb' & _ & Hcase).
  rewrite Hb in Hb'. injection Hb' as <- <-.
  destruct Hcase as (_ & _ & _ & [->|[Ho|[Hr|Hw]]]); eauto 10.
Qed.

Lemma chat_voice_errors_witness :
  not_transcribed = voice_unavailable ∨ not_transcribed = not_transcribed ∨
  @path_mkdir local_uploads (@TEMP_AUDIO_DIR local_uploads) = Raises not_transcribed ∨
  UploadFile.read clip = Raises not_transcribed ∨
  ∃ path, @open_wb local_uploads path = Raises not_transcribed ∨
          ∃ content, @file_write local_uploads path content = Raises not_transcribed.
Proof.
  apply (chat_voice_errors (H := nominal) (H0 := local_uploads)
           (serving (Some silent_model)) clip None true nominal_boot).
  reflexivity.
Defined.

(** X5: a response of the voice endpoint never exposes a server path; it
    echoes a non-empty session identifier of the request and otherwise
    carries a freshly drawn one; and it carries no audio when audio was not
    requested or voice output is not set up. *)
Theorem chat_voice_response `{Externals} `{Uploads}
    (g : Main.globals) (audio : UploadFile.t) (sid : option pystr)
    (return_audio : bool) (w : World) (resp : VoiceChatResponse.t) :
  (chat_voice g audio sid return_audio w).1 = Returns resp →
  VoiceChatResponse.audio_path resp = None ∧
  VoiceChatResponse.session_id resp
    = (if truthy_opt sid then default [] sid
       else uuid_str (uuid4 (uuid_draws w))) ∧
  (return_audio = false ∨ Main.voice_output_processor g = None →
   VoiceChatResponse.audio_base64 resp = None).
Proof.
  destruct (chat_voice_world g audio sid return_audio w)
    as (s & w0 & Hs & _ & _ & _ & _ & Hv).
  destruct (HealthResponse.voice_input_available (Main.health_check g));
    [|by rewrite Hv].
  destruct (path_mkdir TEMP_AUDIO_DIR) as [[]|e']; [|by rewrite Hv].
  destruct Hv as (vip & o & w2 & w3 & Hb & _ & ->). simpl. intros ->.
  destruct (save_and_answer_world g vip audio s return_audio
              (temp_path_of audio (uuid_draws w0))
              {| pipeline := pipeline w0; files := files w0;
                 uuid_draws := S (uuid_draws w0); queries := queries w0 |})
    as (o' & w2' & Hb' & _ & Hcase).
  rewrite Hb in Hb'. injection Hb' as <- <-.
  destruct Hcase as (t & _ & _ & _ & _ & _ & Hsid & Hpath & Hoff & _).
  split; [done|]. split; [by rewrite Hsid|].
  intros Hno. by destruct (Hoff Hno).
Qed.

Lemma chat_voice_response_witness :
  ∃ resp,
    (chat_voice (E := nominal) (U := local_uploads) (serving (Some fir_model))
       clip (Some (py "abc-123")) false nominal_boot).1 = Returns resp ∧
    VoiceChatResponse.audio_path resp = None ∧
    VoiceChatResponse.session_id resp = py "abc-123" ∧
    (false = false ∨
     Main.voice_output_processor (serving (Some fir_model)) = None →
     VoiceChatResponse.audio_base64 resp = None).
Proof.
  eexists. split; [reflexivity|].
  apply (chat_voice_response (H := nominal) (H0 := local_uploads)
           (serving (Some fir_model)) clip (Some (py "abc-123")) false
           nominal_boot).
  reflexivity.
Defined.

(** ** More on the voice collaborators *)

(** X6: a voice input processor constructed while Whisper cannot be loaded
    is constructed all the same, has no model, and transcribes every audio
    path to [None]. *)
Theorem voice_input_disabled_without_whisper `{Externals}
    (model_size audio_path : pystr) (w : World) :
  is_raise (whisper_load_model model_size) = true →
  ∃ vip, VoiceInputProcessor.init model_size w = (Returns vip, w) ∧
         VoiceInputProcessor.model vip = None ∧
         VoiceInputProcessor.transcribe vip audio_path w = (Returns None, w).
Proof.
  intros Hr. unfold VoiceInputProcessor.init. py_unfold.
  destruct (whisper_load_model model_size) as [mo|e]; [done|].
  by eexists.
Qed.

Lemma voice_input_disabled_without_whisper_witness :
  ∃ vip, VoiceInputProcessor.init (E := nominal) (py "base") nominal_boot
         = (Returns vip, nominal_boot) ∧
         VoiceInputProcessor.model vip = None ∧
         VoiceInputProcessor.transcribe vip (py "clip.wav") nominal_boot
         = (Returns None, nominal_boot).
Proof.
  apply (voice_input_disabled_without_whisper (H := nominal)). reflexivity.
Defined.

(** X7: when Whisper answers, [transcribe] returns the text field of the
    result with surrounding whitespace removed, and [None] when that field
    is missing, empty or made of whitespace only. *)
Theorem transcribe_strips_or_none `{Externals}
    (m : WhisperModel) (audio_path : pystr) (result : gmap string pystr)
    (w : World) :
  whisper_transcribe m audio_path = Returns result →
  let text := default [] (result !! "text"%string) in
  VoiceInputProcessor.transcribe {| VoiceInputProcessor.model := Some m |}
    audio_path w
  = (Returns (if blank text then None else Some (strip text)), w).
Proof.
  intros Hr text. unfold VoiceInputProcessor.transcribe. simpl. py_unfold.
  rewrite Hr. fold text.
  destruct (blank text) eqn:Hb.
  - apply strip_nil_iff in Hb. by rewrite Hb.
  - destruct (strip text) as [|c t] eqn:Hs; [|done].
    apply strip_nil_iff in Hs. congruence.
Qed.

Lemma transcribe_strips_or_none_witness :
  VoiceInputProcessor.transcribe (E := nominal)
    {| VoiceInputProcessor.model := Some mute_model |} (py "clip.wav") nominal_boot
  = (Returns (if blank (default [] ((∅ : gmap string pystr) !! "text"%string))
              then None
              else Some (strip (default [] ((∅ : gmap string pystr) !! "text"%string)))),
     nominal_boot).
Proof.
  apply (transcribe_strips_or_none (H := nominal) mute_model (py "clip.wav") ∅
           nominal_boot).
  reflexivity.
Defined.

(** X8: [speak] always draws exactly one UUID, and it returns a path
    exactly when gTTS accepted the text, saving succeeded and the saved file
    is there with at least 1000 bytes; the path is then the absolute path of
    [<uuid hex>.mp3] inside the output directory. *)
Theorem speak_succeeds_iff `{Externals}
    (self : VoiceOutputProcessor.t) (text p : pystr) (w : World) :
  let path := os_path_abspath
                (os_path_join (VoiceOutputProcessor.output_dir self)
                   (uuid_hex (uuid4 (uuid_draws w)) ++ py ".mp3")) in
  let r := VoiceOutputProcessor.speak self text w in
  uuid_draws r.2 = S (uuid_draws w) ∧
  (r.1 = Returns (Some p) ↔
   p = path ∧ gTTS_init text = Returns tt ∧
   (gTTS_save text path (files w)).1 = Returns tt ∧
   ∃ n, (gTTS_save text path (files w)).2 !! path = Some n ∧ (1000 ≤ n)%N).
Proof.
  intros path r. subst path r.
  unfold VoiceOutputProcessor.speak, uuid_uuid4, tts_save, os_path_exists,
    os_path_getsize.
  py_unfold. simpl. set (path := os_path_abspath _).
  destruct (gTTS_init text) as [[]|e].
  2: { split; [done|]. split; [done|]. by intros (_ & ? & _). }
  destruct (gTTS_save text path (files w)) as [[[]|e] fs]; simpl.
  2: { split; [done|]. split; [done|]. by intros (_ & _ & ? & _). }
  case_bool_decide as Hp; simpl.
  - destruct Hp as [n Hn]. rewrite Hn.
    destruct (n <? 1000)%N eqn:Hlt; simpl.
    + split; [done|]. split; [done|].
      intros (_ & _ & _ & n' & [= <-] & Hn').
      apply N.ltb_lt in Hlt. lia.
    + split; [done|]. apply N.ltb_ge in Hlt. split.
      * intros [= <-]. split; [done|]. split; [done|]. split; [done|].
        by exists n.
      * by intros (-> & _).
  - split; [done|]. split; [done|].
    intros (_ & _ & _ & n & Hn & _). destruct Hp. by eexists.
Qed.

(** X9: a saved file under 1000 bytes is reported as a failure, [speak]
    returns [None], and the file is left where it was written. *)
Theorem speak_rejects_small_file `{Externals}
    (self : VoiceOutputProcessor.t) (text : pystr) (w : World)
    (fs : gmap pystr N) (n : N) :
  let path := os_path_abspath
                (os_path_join (VoiceOutputProcessor.output_dir self)
                   (uuid_hex (uuid4 (uuid_draws w)) ++ py ".mp3")) in
  gTTS_init text = Returns tt →
  gTTS_save text path (files w) = (Returns tt, fs) →
  fs !! path = Some n →
  (n < 1000)%N →
  ∃ w', VoiceOutputProcessor.speak self text w = (Returns None, w') ∧
        files w' = fs.
Proof.
  intros path Hi Hs Hn Hlt. subst path.
  unfold VoiceOutputProcessor.speak, uuid_uuid4, tts_save, os_path_exists,
    os_path_getsize.
  py_unfold. simpl in *. set (path := os_path_abspath _) in *.
  rewrite Hi, Hs. simpl.
  rewrite bool_decide_eq_true_2 by (by eexists). simpl.
  rewrite Hn. apply N.ltb_lt in Hlt. rewrite Hlt. by eexists.
Qed.

Lemma speak_rejects_small_file_witness :
  ∃ w', VoiceOutputProcessor.speak (E := stub_tts)
          {| VoiceOutputProcessor.output_dir := py "voice_outputs" |}
          (py "Bail is a right.") stub_tts_boot = (Returns None, w') ∧
        files w' = {[ py "/srv/voice_outputs/id-" ++ [0%N] ++ py ".mp3" := 12%N ]}.
Proof.
  apply (speak_rejects_small_file (H := stub_tts)
           {| VoiceOutputProcessor.output_dir := py "voice_outputs" |}
           (py "Bail is a right.") stub_tts_boot
           {[ py "/srv/voice_outputs/id-" ++ [0%N] ++ py ".mp3" := 12%N ]} 12%N);
    [reflexivity | vm_compute; reflexivity | vm_compute; reflexivity | reflexivity].
Defined.

(** ** More on the voice orchestrator *)

Section process_facts.
Context {E : Externals}.
Implicit Types (w : World) (self : VoiceChatbot.t).

Lemma process_parts self (text_input audio_path : option pystr) :
  VoiceChatbot.process self text_input audio_path
  = (text_input <~ resolve_input self text_input audio_path ;;
     match text_input with
     | Some query =>
         if truthy query then answer_and_speak self audio_path query
         else PyM.ret VoiceChatbot.unable
     | None => PyM.ret VoiceChatbot.unable
     end).
Proof. reflexivity. Qed.

(** A transcription, when there is one, replaces the text input. *)
Lemma resolve_input_world self (text_input audio_path : option pystr) w :
  resolve_input self text_input audio_path w
  = (Returns match heard self audio_path w with
             | Some t => Some t
             | None => text_input
             end, w) ∧
  match heard self audio_path w with
  | Some t => truthy t = true ∧ blank t = false
  | None => True
  end.
Proof.
  unfold resolve_input, heard.
  destruct audio_path as [path|]; [|done].
  destruct (truthy path); [|done].
  destruct (transcribe_pure (VoiceChatbot.voice_input self) path w)
    as (t & Heq & Ht).
  py_unfold. rewrite Heq. cbn [fst].
  destruct t as [s|]; [|done]. destruct Ht as [Ht Hb].
  cbn [truthy_opt]. rewrite Ht. by split.
Qed.

Lemma answer_and_speak_world self (audio_path : option pystr) (q : pystr) w :
  let r := answer_and_speak self audio_path q w in
  queries r.2 = queries w ++ [q] ∧
  pipeline r.2 = (rag_pipeline q (pipeline w)).2 ∧
  match (rag_pipeline q (pipeline w)).1 with
  | Raises e =>
      r.1 = Raises e ∧ files r.2 = files w ∧ uuid_draws r.2 = uuid_draws w
  | Returns answer =>
      ∃ a, r.1 = Returns {| VoiceChatbot.text := answer;
                            VoiceChatbot.audio := a |} ∧
           (truthy_opt audio_path = false →
            a = None ∧ files r.2 = files w ∧ uuid_draws r.2 = uuid_draws w)
  end.
Proof.
  intros r. subst r. unfold answer_and_speak. py_unfold.
  rewrite answer_query_world.
  destruct (rag_pipeline q (pipeline w)).1 as [answer|e]; [|done].
  destruct (truthy_opt audio_path) eqn:Ha.
  - match goal with
    | |- context [VoiceOutputProcessor.speak ?v ?t ?w0] =>
        destruct (speak_world v t w0) as (a & w' & Hs & Hq' & Hp')
    end.
    rewrite Hs. simpl. split; [done|]. split; [done|]. by exists a.
  - simpl. split; [done|]. split; [done|]. by exists None.
Qed.

(** [process] in terms of the resolved input. *)
Lemma process_resolved self (text_input audio_path : option pystr) w :
  VoiceChatbot.process self text_input audio_path w
  = match (match heard self audio_path w with
           | Some t => Some t
           | None => text_input
           end) with
    | Some q =>
        if truthy q then answer_and_speak self audio_path q w
        else (Returns VoiceChatbot.unable, w)
    | None => (Returns VoiceChatbot.unable, w)
    end.
Proof.
  rewrite process_parts. unfold PyM.bind.
  destruct (resolve_input_world self text_input audio_path w) as [-> _].
  destruct (match heard self audio_path w with
            | Some t => Some t
            | None => text_input
            end) as [q|]; [|done].
  by destruct (truthy q).
Qed.

Lemma heard_without_audio self (audio_path : option pystr) w :
  truthy_opt audio_path = false → heard self audio_path w = None.
Proof.
  unfold heard. destruct audio_path as [path|]; [|done]. simpl. by intros ->.
Qed.
End process_facts.

(** X10: constructing the voice orchestrator tolerates a missing Whisper
    but not an output directory that cannot be created: the constructor
    raises exactly when [os.makedirs] does, and otherwise yields a bot whose
    voice input has a model exactly when Whisper loaded. *)
Theorem voice_chatbot_init_needs_directory `{Externals} (w : World) :
  match os_makedirs (py "voice_outputs") with
  | Raises e => VoiceChatbot.init w = (Raises e, w)
  | Returns _ =>
      ∃ bot,
        VoiceChatbot.init w = (Returns bot, w) ∧
        VoiceOutputProcessor.output_dir (VoiceChatbot.voice_output bot)
        = py "voice_outputs" ∧
        (is_Some (VoiceInputProcessor.model (VoiceChatbot.voice_input bot))
         ↔ is_raise (whisper_load_model (py "base")) = false)
  end.
Proof.
  unfold VoiceChatbot.init, VoiceInputProcessor.init, VoiceOutputProcessor.init.
  py_unfold.
  destruct (whisper_load_model (py "base")) as [mo|e1];
    destruct (os_makedirs (py "voice_outputs")) as [[]|e2]; try done;
    eexists; (split; [done|]); (split; [done|]); simpl; split; done.
Qed.

(** X11: with a non-empty text and no audio path, [process] hands the text
    to the pipeline unchanged, returns its answer without audio, and neither
    draws a UUID nor touches a file; an exception of the pipeline is not
    caught. *)
Theorem process_text_only `{Externals}
    (self : VoiceChatbot.t) (query : pystr) (audio_path : option pystr)
    (w : World) :
  truthy query = true →
  truthy_opt audio_path = false →
  let r := VoiceChatbot.process self (Some query) audio_path w in
  queries r.2 = queries w ++ [query] ∧
  files r.2 = files w ∧ uuid_draws r.2 = uuid_draws w ∧
  r.1 = match (answer_query query w).1 with
        | Returns answer =>
            Returns {| VoiceChatbot.text := answer; VoiceChatbot.audio := None |}
        | Raises e => Raises e
        end.
Proof.
  intros Hq Ha r. subst r.
  rewrite process_resolved, (heard_without_audio self audio_path w Ha), Hq.
  destruct (answer_and_speak_world self audio_path query w) as (Hqs & _ & Hcase).
  rewrite answer_query_world. simpl.
  destruct (rag_pipeline query (pipeline w)).1 as [answer|e].
  - destruct Hcase as (a & Hr & Hoff). destruct (Hoff Ha) as (-> & Hf & Hu).
    by rewrite Hr.
  - by destruct Hcase as (? & ? & ?).
Qed.

Lemma process_text_only_witness :
  let r := VoiceChatbot.process (E := outage) deaf_bot (Some (py "Explain FIR"))
             None outage_boot in
  queries r.2 = queries outage_boot ++ [py "Explain FIR"] ∧
  files r.2 = files outage_boot ∧ uuid_draws r.2 = uuid_draws outage_boot ∧
  r.1 = match (answer_query (E := outage) (py "Explain FIR") outage_boot).1 with
        | Returns answer =>
            Returns {| VoiceChatbot.text := answer; VoiceChatbot.audio := None |}
        | Raises e => Raises e
        end.
Proof.
  apply (process_text_only (H := outage) deaf_bot (py "Explain FIR") None
           outage_boot); reflexivity.
Defined.

(** X12: the only exceptions that escape [process] are those raised by
    [answer_query]: if [process] raises, the pipeline was asked one query
    and raised that very exception. *)
Theorem process_raises_only_pipeline_errors `{Externals}
    (self : VoiceChatbot.t) (text_input audio_path : option pystr)
    (w : World) (e : exn) :
  let r := VoiceChatbot.process self text_input audio_path w in
  r.1 = Raises e →
  ∃ q, (answer_query q w).1 = Raises e ∧ queries r.2 = queries w ++ [q].
Proof.
  intros r. subst r. rewrite process_resolved.
  destruct (match heard self audio_path w with
            | Some t => Some t
            | None => text_input
            end) as [q|]; [|done].
  destruct (truthy q); [|done].
  destruct (answer_and_speak_world self audio_path q w) as (Hqs & _ & Hcase).
  intros Hr. exists q. split; [|done].
  rewrite answer_query_world. simpl.
  destruct (rag_pipeline q (pipeline w)).1 as [answer|e'].
  - destruct Hcase as (a & Hr' & _). congruence.
  - destruct Hcase as (Hr' & _). congruence.
Qed.

Lemma process_raises_only_pipeline_errors_witness :
  let e := Error "RuntimeError" (py "vector store unavailable") in
  ∃ q, (answer_query (E := outage) q outage_boot).1 = Raises e ∧
       queries (VoiceChatbot.process (E := outage) deaf_bot
                  (Some (py "Explain FIR")) None outage_boot).2
       = queries outage_boot ++ [q].
Proof.
  apply (process_raises_only_pipeline_errors (H := outage) deaf_bot
           (Some (py "Explain FIR")) None outage_boot).
  reflexivity.
Defined.

(** X13: when the audio is transcribed, the transcription is what gets
    answered and a text input passed alongside is ignored. *)
Theorem process_prefers_transcription `{Externals}
    (self : VoiceChatbot.t) (text_input : option pystr) (audio_path t : pystr)
    (w : World) :
  truthy audio_path = true →
  (VoiceInputProcessor.transcribe (VoiceChatbot.voice_input self) audio_path w).1
  = Returns (Some t) →
  let r := VoiceChatbot.process self text_input (Some audio_path) w in
  r = VoiceChatbot.process self None (Some audio_path) w ∧
  queries r.2 = queries w ++ [t].
Proof.
  intros Ha Ht r. subst r. rewrite !process_resolved.
  assert (heard self (Some audio_path) w = Some t) as ->
    by (unfold heard; by rewrite Ha, Ht).
  split; [done|].
  destruct (transcribe_pure (VoiceChatbot.voice_input self) audio_path w)
    as (t' & Heq & Htt).
  rewrite Heq in Ht. injection Ht as ->. destruct Htt as [-> _].
  by destruct (answer_and_speak_world self (Some audio_path) t w) as (-> & _).
Qed.

Lemma process_prefers_transcription_witness :
  let bot := {| VoiceChatbot.voice_input :=
                  {| VoiceInputProcessor.model := Some fir_model |};
                VoiceChatbot.voice_output := VoiceChatbot.voice_output deaf_bot |} in
  let r := VoiceChatbot.process (E := nominal) bot (Some (py "Explain bail"))
             (Some (py "clip.wav")) nominal_boot in
  r = VoiceChatbot.process (E := nominal) bot None (Some (py "clip.wav")) nominal_boot ∧
  queries r.2 = queries nominal_boot ++ [py "What is an FIR?"].
Proof.
  intros bot.
  apply (process_prefers_transcription (H := nominal) bot
           (Some (py "Explain bail")) (py "clip.wav") (py "What is an FIR?")
           nominal_boot); reflexivity.
Defined.

(** X14: one call of [process] asks the pipeline at most once, and a
    response carries audio only when an audio path was given. *)
Theorem process_asks_at_most_once `{Externals}
    (self : VoiceChatbot.t) (text_input audio_path : option pystr) (w : World) :
  let r := VoiceChatbot.process self text_input audio_path w in
  (∃ qs, queries r.2 = queries w ++ qs ∧ length qs ≤ 1) ∧
  match r.1 with
  | Returns resp =>
      is_Some (VoiceChatbot.audio resp) → truthy_opt audio_path = true
  | Raises _ => True
  end.
Proof.
  intros r. subst r. rewrite process_resolved.
  destruct (match heard self audio_path w with
            | Some t => Some t
            | None => text_input
            end) as [q|].
  2: { split; [exists []; split; [by rewrite app_nil_r|simpl; lia]|].
       simpl. by intros [? ?]. }
  destruct (truthy q).
  2: { split; [exists []; split; [by rewrite app_nil_r|simpl; lia]|].
       simpl. by intros [? ?]. }
  destruct (answer_and_speak_world self audio_path q w) as (Hqs & _ & Hcase).
  split; [exists [q]; split; [done|simpl; lia]|].
  destruct (rag_pipeline q (pipeline w)).1 as [answer|e].
  - destruct Hcase as (a & -> & Hoff). simpl. intros [p ->].
    destruct (truthy_opt audio_path); [done|]. by destruct (Hoff eq_refl).
  - by destruct Hcase as (-> & _).
Qed.

(** ** More on the HTTP service *)

Section more_service_facts.
Context {E : Externals}.
Implicit Types (w : World) (m : pystr).

Lemma chat_parts (request : ChatRequest.t) :
  Main.chat request
  = (session_id <~ session_step (ChatRequest.session_id request) ;;
     if negb (truthy (ChatRequest.message request))
        || negb (truthy (strip (ChatRequest.message request)))
     then PyM.raise (HTTPException 400 (py "Message cannot be empty"))
     else
       reply <~ PyM.try_except
                  (Main.safe_chatbot_call (strip (ChatRequest.message request)))
                  (λ _, PyM.raise
                          (HTTPException 500 (py "Chatbot temporarily unavailable"))) ;;
       PyM.ret {| ChatResponse.reply := reply;
                  ChatResponse.session_id := session_id;
                  ChatResponse.confidence := None |}).
Proof. reflexivity. Qed.

(** The validation of [chat] rejects exactly the blank messages. *)
Lemma rejected_iff_blank m :
  negb (truthy m) || negb (truthy (strip m)) = blank m.
Proof.
  destruct (blank m) eqn:Hb.
  - apply strip_nil_iff in Hb. rewrite Hb. simpl. apply orb_true_r.
  - destruct m as [|c m]; [done|]. simpl.
    destruct (strip (c :: m)) as [|c' t] eqn:Hs; [|done].
    apply strip_nil_iff in Hs. congruence.
Qed.

(** What startup leaves behind. *)
Lemma lifespan_world w :
  Main.lifespan w
  = (Returns
       {| Main.voice_input_processor :=
            Some {| VoiceInputProcessor.model :=
                      match whisper_load_model (py "base") with
                      | Returns mo => Some mo
                      | Raises _ => None
                      end |};
          Main.voice_output_processor :=
            match os_makedirs (os_path_join SCRIPTS_DIR (py "voice_outputs")) with
            | Returns _ =>
                Some {| VoiceOutputProcessor.output_dir :=
                          os_path_join SCRIPTS_DIR (py "voice_outputs") |}
            | Raises _ => None
            end |},
     {| pipeline := (rag_pipeline (py "test initialization") (pipeline w)).2;
        files := files w; uuid_draws := uuid_draws w;
        queries := queries w ++ [py "test initialization"] |}).
Proof.
  unfold Main.lifespan, VoiceInputProcessor.init, VoiceOutputProcessor.init.
  py_unfold.
  destruct (whisper_load_model (py "base")) as [mo|e1];
    destruct (os_makedirs _) as [[]|e2];
    rewrite answer_query_world;
    by destruct (rag_pipeline _ _).1 as [a|e3].
Qed.
End more_service_facts.

(** X15: a response of [chat] echoes a non-empty session identifier of the
    request and otherwise carries the string of a freshly drawn UUID; its
    confidence is always absent. *)
Theorem chat_session_id `{Externals}
    (request : ChatRequest.t) (w : World) (resp : ChatResponse.t) :
  (Main.chat request w).1 = Returns resp →
  ChatResponse.session_id resp
    = (if truthy_opt (ChatRequest.session_id request)
       then default [] (ChatRequest.session_id request)
       else uuid_str (uuid4 (uuid_draws w))) ∧
  ChatResponse.confidence resp = None.
Proof.
  rewrite chat_parts. unfold PyM.bind at 1. rewrite session_step_id.
  destruct (truthy_opt (ChatRequest.session_id request));
    (destruct (negb (truthy (ChatRequest.message request))
               || negb (truthy (strip (ChatRequest.message request))));
     [done|]);
    py_unfold; rewrite safe_chatbot_call_world; simpl; by intros [= <-].
Qed.

Lemma chat_session_id_witness :
  ∃ resp,
    (Main.chat (E := nominal)
       {| ChatRequest.session_id := Some [];
          ChatRequest.message := py "What is bail?" |} nominal_boot).1
    = Returns resp ∧
    ChatResponse.session_id resp = id_of_nat 0 ∧
    ChatResponse.confidence resp = None.
Proof.
  eexists. split; [reflexivity|].
  apply (chat_session_id (H := nominal)
           {| ChatRequest.session_id := Some [];
              ChatRequest.message := py "What is bail?" |} nominal_boot).
  reflexivity.
Defined.

(** X16: [chat] hands the pipeline the message with surrounding whitespace
    removed, exactly once, and nothing at all when the message is blank; it
    never touches a file. *)
Theorem chat_hands_over_stripped_message `{Externals}
    (request : ChatRequest.t) (w : World) :
  let m := ChatRequest.message request in
  let r := Main.chat request w in
  queries r.2 = queries w ++ (if blank m then [] else [strip m]) ∧
  pipeline r.2 = (if blank m then pipeline w
                  else (rag_pipeline (strip m) (pipeline w)).2) ∧
  files r.2 = files w.
Proof.
  intros m r. subst r.
  destruct (chat_world request w) as (s & n & ->). fold m.
  rewrite rejected_iff_blank.
  destruct (blank m); simpl; [|done]. by rewrite app_nil_r.
Qed.

(** X17: startup never fails and sends the pipeline exactly one warm-up
    query, "test initialization"; whatever the pipeline did with it is the
    state requests start from, and no file or UUID is used. *)
Theorem lifespan_warm_up `{Externals} (w : World) :
  ∃ g w',
    Main.lifespan w = (Returns g, w') ∧
    queries w' = queries w ++ [py "test initialization"] ∧
    pipeline w' = (rag_pipeline (py "test initialization") (pipeline w)).2 ∧
    files w' = files w ∧ uuid_draws w' = uuid_draws w.
Proof. rewrite lifespan_world. by eexists _, _. Qed.

(** X18: when Whisper could not be loaded at startup, the health check
    reports voice input as unavailable and every later voice request is
    refused with status 503. *)
Theorem voice_refused_after_startup_without_whisper `{Externals} `{Uploads}
    (w w1 w2 : World) (g : Main.globals) (audio : UploadFile.t)
    (sid : option pystr) (return_audio : bool) :
  is_raise (whisper_load_model (py "base")) = true →
  Main.lifespan w = (Returns g, w1) →
  HealthResponse.voice_input_available (Main.health_check g) = false ∧
  (chat_voice g audio sid return_audio w2).1 = Raises voice_unavailable.
Proof.
  intros Hr. rewrite lifespan_world. intros [= <- _].
  destruct (whisper_load_model (py "base")) as [mo|e]; [done|].
  assert (HealthResponse.voice_input_available
            (Main.health_check
               {| Main.voice_input_processor :=
                    Some {| VoiceInputProcessor.model := None |};
                  Main.voice_output_processor :=
                    match os_makedirs (os_path_join SCRIPTS_DIR (py "voice_outputs")) with
                    | Returns _ =>
                        Some {| VoiceOutputProcessor.output_dir :=
                                  os_path_join SCRIPTS_DIR (py "voice_outputs") |}
                    | Raises _ => None
                    end |}) = false) as Hoff by done.
  split; [done|].
  match goal with
  | |- (chat_voice ?g0 _ _ _ _).1 = _ =>
      destruct (chat_voice_world g0 audio sid return_audio w2)
        as (s & w0 & _ & _ & _ & _ & _ & Hv)
  end.
  rewrite Hoff in Hv. by rewrite Hv.
Qed.

Lemma voice_refused_after_startup_without_whisper_witness :
  HealthResponse.voice_input_available (Main.health_check (serving None)) = false ∧
  (chat_voice (E := nominal) (U := local_uploads) (serving None) clip None true
     nominal_boot).1 = Raises voice_unavailable.
Proof.
  apply (voice_refused_after_startup_without_whisper
           (H := nominal) (H0 := local_uploads)
           nominal_boot (@mkWorld nominal 1 ∅ 0 [py "test initialization"])
           nominal_boot (serving None) clip None true);
    reflexivity.
Defined.

(** ** More on the corpus indexer *)

Section more_indexer_facts.
Context {E : Externals} {V : Embeddings}.
Variable load_documents : string → outcome (list Document).
Implicit Types (c : Chroma.Client) (coll : gmap pystr Chroma.Entry).

(** A source file that cannot be loaded stops the loading. *)
Lemma collect_raises (paths : list string) (all_docs : list Document) (i : nat)
    (path : string) :
  paths !! i = Some path →
  is_raise (load_documents path) = true →
  is_raise (collect load_documents all_docs paths) = true.
Proof.
  revert all_docs i. induction paths as [|p rest IH]; intros all_docs i Hi Hr;
    [done|]. simpl.
  destruct i as [|i]; simpl in Hi.
  - injection Hi as ->. by destruct (load_documents path).
  - destruct (load_documents p); [by eapply IH|done].
Qed.

Lemma upsert_cons coll (i : pystr) (ids : list pystr) (e : Chroma.Entry)
    (entries : list Chroma.Entry) :
  Chroma.upsert coll (i :: ids) (e :: entries)
  = Chroma.upsert (<[i := e]> coll) ids entries.
Proof. done. Qed.

(** With pairwise distinct identifiers, the n-th identifier holds the n-th
    entry. *)
Lemma upsert_lookup_nth coll (ids : list pystr) (entries : list Chroma.Entry)
    (n : nat) (i : pystr) (e : Chroma.Entry) :
  NoDup ids → ids !! n = Some i → entries !! n = Some e →
  Chroma.upsert coll ids entries !! i = Some e.
Proof.
  revert coll entries n. induction ids as [|j ids IH];
    intros coll entries n Hnd Hi He; [done|].
  destruct entries as [|e' entries]; [done|].
  rewrite upsert_cons. apply NoDup_cons in Hnd as [Hj Hnd].
  destruct n as [|n]; simpl in Hi, He.
  - injection Hi as ->. injection He as ->.
    rewrite upsert_lookup_other by done. apply lookup_insert_eq.
  - by eapply IH.
Qed.


Lemma size_upsert_empty (ids : list pystr) (entries : list Chroma.Entry) :
  NoDup ids → length ids = length entries →
  size (Chroma.upsert ∅ ids entries) = length ids.
Proof.
  intros Hnd Hlen. rewrite <- size_dom, dom_upsert by done.
  rewrite dom_empty_L, (left_id_L ∅ (∪)). by apply size_list_to_set.
Qed.
End more_indexer_facts.

(** X19: the indexer loads every source file before it writes anything: if
    one of the four files cannot be loaded, the build raises and the
    persisted store is exactly as it was. *)
Theorem build_aborts_on_load_failure `{Externals} `{Embeddings}
    (load_documents : string → outcome (list Document))
    (c : Chroma.Client) (i : nat) (path : string) :
  BuildVectordb.DATA_FILES !! i = Some path →
  is_raise (load_documents path) = true →
  ∃ e, BuildVectordb.build_vectordb load_documents c = (Raises e, c).
Proof.
  intros Hi Hr. rewrite build_vectordb_world.
  pose proof (collect_raises load_documents BuildVectordb.DATA_FILES [] i path
                Hi Hr) as Hc.
  destruct (collect load_documents [] BuildVectordb.DATA_FILES) as [docs|e];
    [done|]. by exists e.
Qed.

Lemma build_aborts_on_load_failure_witness :
  ∃ e, BuildVectordb.build_vectordb (E := nominal) (V := toy_embeddings)
         load_broken stale_client = (Raises e, stale_client).
Proof.
  apply (build_aborts_on_load_failure (H := nominal) (H0 := toy_embeddings)
           load_broken stale_client 2 "../data/normalized_glossary.json");
    reflexivity.
Defined.

(** X20: after a successful build whose generated identifiers are pairwise
    distinct, every loaded document is stored: the document loaded at
    position n has an identifier written for it, the n-th drawn by the build,
    and the collection holds the document, with the embedding of its text,
    under that identifier. *)
Theorem build_stores_each_document `{Externals} `{Embeddings}
    (load_documents : string → outcome (list Document))
    (c c1 : Chroma.Client) (rep : BuildVectordb.report)
    (all_docs : list Document) (n : nat) (d : Document) :
  BuildVectordb.build_vectordb load_documents c = (Returns rep, c1) →
  NoDup (run_ids c c1) →
  (BuildVectordb.load_all load_documents [] BuildVectordb.DATA_FILES c).1
  = Returns all_docs →
  all_docs !! n = Some d →
  ∃ i, run_ids c c1 !! n = Some i ∧
       i = draw (Chroma.drawn c + n) ∧
       Chroma.collection legal_knowledge c1 !! i
       = Some (Chroma.entry_of legal_knowledge d).
Proof.
  rewrite build_vectordb_world, load_all_world.
  destruct (collect load_documents [] BuildVectordb.DATA_FILES) as [docs|e];
    [|discriminate].
  intros [= <- <-]. rewrite built_run_ids, built_collection.
  intros Hnd [= <-] Hd.
  assert ((draw <$> seq (Chroma.drawn c) (length docs)) !! n
          = Some (draw (Chroma.drawn c + n))) as Hi.
  { rewrite list_lookup_fmap.
    rewrite (proj2 (lookup_seq (Chroma.drawn c) (length docs) n
                      (Chroma.drawn c + n))); [done|].
    split; [done|]. by eapply lookup_lt_Some. }
  exists (draw (Chroma.drawn c + n)). split; [done|]. split; [done|].
  eapply upsert_lookup_nth; [done|done|].
  by rewrite list_lookup_fmap, Hd.
Qed.

Lemma build_stores_each_document_witness :
  let c1 := (BuildVectordb.build_vectordb (E := nominal) (V := toy_embeddings)
               load_sample stale_client).2 in
  let d := {| page_content := py "CrPC 154: FIR"; metadata := ∅ |} in
  ∃ i, run_ids stale_client c1 !! 2 = Some i ∧
       i = draw (E := nominal) (Chroma.drawn stale_client + 2) ∧
       Chroma.collection legal_knowledge c1 !! i
       = Some (Chroma.entry_of legal_knowledge d).
Proof.
  intros c1 d.
  apply (build_stores_each_document (H := nominal) (H0 := toy_embeddings)
           load_sample stale_client c1
           {| BuildVectordb.documents := 3; BuildVectordb.db_count := 4 |}
           [ {| page_content := py "IPC 420: cheating"; metadata := ∅ |};
             {| page_content := py "IPC 302: murder"; metadata := ∅ |};
             d ] 2 d).
  - vm_compute. reflexivity.
  - refine (bool_decide_unpack _ _). vm_compute. exact I.
  - reflexivity.
  - reflexivity.
Defined.

(** X21: a build into an empty collection, with pairwise distinct
    identifiers, reports a collection count equal to the number of documents
    it loaded. *)
Theorem build_fresh_store_count `{Externals} `{Embeddings}
    (load_documents : string → outcome (list Document))
    (c c1 : Chroma.Client) (rep : BuildVectordb.report) :
  Chroma.collection legal_knowledge c = ∅ →
  BuildVectordb.build_vectordb load_documents c = (Returns rep, c1) →
  NoDup (run_ids c c1) →
  BuildVectordb.db_count rep = BuildVectordb.documents rep.
Proof.
  intros Hempty. rewrite build_vectordb_world.
  destruct (collect load_documents [] BuildVectordb.DATA_FILES) as [docs|e];
    [|discriminate].
  intros [= <- <-]. rewrite built_run_ids, built_collection, Hempty. simpl.
  intros Hnd. rewrite size_upsert_empty; [|done|];
    by rewrite !length_fmap, length_seq.
Qed.

Lemma build_fresh_store_count_witness :
  let run := BuildVectordb.build_vectordb (E := nominal) (V := toy_embeddings)
               load_sample empty_client in
  ∃ rep, run.1 = Returns rep ∧
         BuildVectordb.db_count rep = BuildVectordb.documents rep.
Proof.
  intros run.
  exists {| BuildVectordb.documents := 3; BuildVectordb.db_count := 3 |}.
  split; [vm_compute; reflexivity|].
  apply (build_fresh_store_count (H := nominal) (H0 := toy_embeddings)
           load_sample empty_client run.2).
  - reflexivity.
  - vm_compute. reflexivity.
  - refine (bool_decide_unpack _ _). vm_compute. exact I.
Defined.

(** X22: a build writes to the collection "legal_knowledge" under
    "chroma_day1" only: every other persisted collection is untouched, and
    the UUID generator has advanced by one draw per loaded document. *)
Theorem build_touches_one_collection `{Externals} `{Embeddings}
    (load_documents : string → outcome (list Document))
    (c c1 : Chroma.Client) (rep : BuildVectordb.report) (k : string * string) :
  BuildVectordb.build_vectordb load_documents c = (Returns rep, c1) →
  k ≠ ("chroma_day1", "legal_knowledge")%string →
  Chroma.disk c1 !! k = Chroma.disk c !! k ∧
  Chroma.drawn c1 = Chroma.drawn c + BuildVectordb.documents rep.
Proof.
  rewrite build_vectordb_world.
  destruct (collect load_documents [] BuildVectordb.DATA_FILES) as [docs|e];
    [|discriminate].
  intros [= <- <-] Hk. simpl. split; [|done].
  by rewrite lookup_insert_ne.
Qed.

Lemma build_touches_one_collection_witness :
  let c1 := (BuildVectordb.build_vectordb (E := nominal) (V := toy_embeddings)
               load_sample stale_client).2 in
  Chroma.disk c1 !! ("chroma_day2", "legal_knowledge")%string
  = Chroma.disk stale_client !! ("chroma_day2", "legal_knowledge")%string ∧
  Chroma.drawn c1 = Chroma.drawn stale_client + 3.
Proof.
  intros c1.
  apply (build_touches_one_collection (H := nominal) (H0 := toy_embeddings)
           load_sample stale_client c1
           {| BuildVectordb.documents := 3; BuildVectordb.db_count := 4 |}
           ("chroma_day2", "legal_knowledge")%string).
  - vm_compute. reflexivity.
  - discriminate.
Defined.


